(** * passphrase-py: the [Passphrase] class of [passphrase/passphrase.py]

    A shallow embedding of the class and of the values it handles, and the
    properties of its setters, queries and generators.

    Layout:
    - Python values, exceptions and the ASCII part of [str];
    - the object state and the monad its methods run in;
    - the collaborating modules ([calc], [secrets], [aux], [settings],
      [wordlist]) as interfaces: their code is not in [passphrase.py];
    - the methods of the class;
    - instances of the interfaces, to run the methods on sample data;
    - the vocabulary of the properties, and the properties. *)

From Stdlib Require Import ZArith List Bool Ascii String Lia SpecFloat.
From Stdlib Require Import DecimalString HexadecimalString.
Import ListNotations.

Set Warnings "-register-all".

Local Open Scope string_scope.
Local Open Scope Z_scope.

(** ** Python values *)

(** Python's [float] is IEEE 754 binary64. *)
Definition float := spec_float.
Definition prec : Z := 53.
Definition emax : Z := 1024.

Definition float_zero : float := S754_zero false.

(** The built-in values the methods receive.  [bool] is a subclass of [int]
    in Python, which [isinstance] sees. *)
Inductive pyval : Type :=
| PyNone
| PyBool (b : bool)
| PyInt (z : Z)
| PyFloat (f : float)
| PyStr (s : string)
| PyList (l : list pyval)
| PyTuple (l : list pyval).

(** The exceptions the class and its collaborators raise. *)
Inductive exn_kind : Type :=
| TypeError
| ValueError
| FileNotFoundError
| IsADirectoryError
| IndexError
| AttributeError
| OverflowError.

Record exn : Type := Raise { exn_class : exn_kind; exn_msg : string }.

Inductive result (A : Type) : Type :=
| Ok (a : A)
| Err (e : exn).

Arguments Ok {A} a.
Arguments Err {A} e.

Definition is_Ok {A} (r : result A) : bool :=
  match r with Ok _ => true | Err _ => false end.

(** The spec's [InvalidInput] class of errors: a wrong type or a value out of
    range. *)
Definition InvalidInput (e : exn) : bool :=
  match exn_class e with
  | TypeError | ValueError => true
  | _ => false
  end.

(** [isinstance(v, int)], with the integer it stands for. *)
Definition as_int (v : pyval) : option Z :=
  match v with
  | PyInt z => Some z
  | PyBool b => Some (if b then 1 else 0)
  | _ => None
  end.

Inductive number : Type :=
| NInt (z : Z)
| NFloat (f : float).

(** [isinstance(v, (int, float))], with the number it stands for. *)
Definition as_number (v : pyval) : option number :=
  match v with
  | PyFloat f => Some (NFloat f)
  | _ => option_map NInt (as_int v)
  end.

Definition isinstance_int (v : pyval) : bool :=
  match as_int v with Some _ => true | None => false end.

Definition isinstance_int_float (v : pyval) : bool :=
  match as_number v with Some _ => true | None => false end.

Definition isinstance_str (v : pyval) : bool :=
  match v with PyStr _ => true | _ => false end.

Definition isinstance_list_tuple (v : pyval) : bool :=
  match v with PyList _ | PyTuple _ => true | _ => false end.

(** [x < 0] on a number. A NaN compares false with everything. *)
Definition number_negative (x : number) : bool :=
  match x with
  | NInt z => z <? 0
  | NFloat f => SFltb f float_zero
  end.

(** [float(x)]: an integer is rounded to the nearest binary64 value, ties to
    even, and one beyond the largest finite value is refused. *)
Definition float_of_int (z : Z) : result float :=
  match binary_normalize prec emax z 0 false with
  | S754_infinity _ =>
      Err (Raise OverflowError "int too large to convert to float")
  | f => Ok f
  end.

Definition float_of_number (x : number) : result float :=
  match x with
  | NInt z => float_of_int z
  | NFloat f => Ok f
  end.

Definition float_truth (f : float) : bool :=
  match f with
  | S754_zero _ => false
  | _ => true
  end.

(** [bool(v)]. *)
Definition truth (v : pyval) : bool :=
  match v with
  | PyNone => false
  | PyBool b => b
  | PyInt z => negb (z =? 0)
  | PyFloat f => float_truth f
  | PyStr s => negb (String.eqb s "")
  | PyList l | PyTuple l => match l with [] => false | _ => true end
  end.

(** ** Strings (the ASCII part of [str]) *)

Definition ascii_code (c : ascii) : nat := nat_of_ascii c.

Definition is_ascii_upper (c : ascii) : bool :=
  ((65 <=? ascii_code c) && (ascii_code c <=? 90))%nat.

Definition is_ascii_lower (c : ascii) : bool :=
  ((97 <=? ascii_code c) && (ascii_code c <=? 122))%nat.

Definition lower_char (c : ascii) : ascii :=
  if is_ascii_upper c then ascii_of_nat (ascii_code c + 32) else c.

Definition upper_char (c : ascii) : ascii :=
  if is_ascii_lower c then ascii_of_nat (ascii_code c - 32) else c.

Fixpoint map_string (f : ascii -> ascii) (s : string) : string :=
  match s with
  | EmptyString => EmptyString
  | String c s' => String (f c) (map_string f s')
  end.

Fixpoint exists_string (f : ascii -> bool) (s : string) : bool :=
  match s with
  | EmptyString => false
  | String c s' => f c || exists_string f s'
  end.

(** [str.lower()] and [str.upper()]. *)
Definition lower (s : string) : string := map_string lower_char s.
Definition upper (s : string) : string := map_string upper_char s.

(** [str.islower()]: some cased character, and none of them uppercase. *)
Definition islower (s : string) : bool :=
  exists_string is_ascii_lower s && negb (exists_string is_ascii_upper s).

(** [str.isupper()]. *)
Definition isupper (s : string) : bool :=
  exists_string is_ascii_upper s && negb (exists_string is_ascii_lower s).

(** Whitespace as [str.split()] and [str.strip()] see it. *)
Definition is_space (c : ascii) : bool :=
  let n := ascii_code c in
  (((9 <=? n) && (n <=? 13)) || ((28 <=? n) && (n <=? 32)))%nat.

Fixpoint lstrip (s : string) : string :=
  match s with
  | EmptyString => EmptyString
  | String c s' => if is_space c then lstrip s' else s
  end.

Fixpoint rstrip (s : string) : string :=
  match s with
  | EmptyString => EmptyString
  | String c s' =>
      match rstrip s' with
      | EmptyString => if is_space c then EmptyString else String c EmptyString
      | r => String c r
      end
  end.

(** [str.strip()]. *)
Definition strip (s : string) : string := rstrip (lstrip s).

(** [str.split()]: the maximal runs of characters that are not whitespace.
    [cur] is the run being read, reversed. *)
Fixpoint split_ws (cur : list ascii) (s : string) : list string :=
  let flush (rest : list string) :=
    match cur with
    | [] => rest
    | _ => string_of_list_ascii (rev cur) :: rest
    end in
  match s with
  | EmptyString => flush []
  | String c s' =>
      if is_space c then flush (split_ws [] s') else split_ws (c :: cur) s'
  end.

Definition split (s : string) : list string := split_ws [] s.

(** [s[lo:hi]] for [0 <= lo] and [0 <= hi]; both ends are clipped to the
    string. *)
Definition slice (lo hi : nat) (s : string) : string :=
  substring lo (hi - lo) s.

(** [s[lo:]]. *)
Definition slice_from (lo : nat) (s : string) : string :=
  substring lo (String.length s - lo) s.

(** [s[:-k]] for [k > 0]. *)
Definition drop_last (k : nat) (s : string) : string :=
  substring 0 (String.length s - k) s.

(** [''.join(parts)]. *)
Definition join_empty (parts : list string) : string :=
  fold_right append "" parts.

(** [str(n)] for an [int]. *)
Definition str_int (z : Z) : string :=
  DecimalString.NilEmpty.string_of_int (Z.to_int z).

(** ['{:x}'.format(n)] for an [int]. *)
Definition format_x (z : Z) : string :=
  HexadecimalString.NilEmpty.string_of_int (Z.to_hex_int z).

(** The constants of the [string] module. *)
Definition ascii_range (first count : nat) : string :=
  string_of_list_ascii (map ascii_of_nat (seq first count)).

Definition ascii_lowercase : string := "abcdefghijklmnopqrstuvwxyz".
Definition ascii_uppercase : string := "ABCDEFGHIJKLMNOPQRSTUVWXYZ".
Definition digits : string := "0123456789".
Definition punctuation : string :=
  ascii_range 33 15 ++ ascii_range 58 7 ++ ascii_range 91 6
    ++ ascii_range 123 4.

(** ** The object *)

(** An element of a generated sequence: a word, a character or a part of a
    UUID ([str]), or a number ([int]). *)
Inductive item : Type :=
| IStr (s : string)
| IInt (z : Z).

(** [str(w)] for an element of a generated sequence. *)
Definition str (w : item) : string :=
  match w with
  | IStr s => s
  | IInt z => str_int z
  end.

(** The attributes [__init__] creates.  [None] is the unset value of the
    attributes that start unset.  An attribute that holds an [int] is kept
    as the integer it stands for: the code compares it and hands it on as a
    number, and a [bool] assigned to it counts as [1] or [0]. *)
Record Passphrase : Type := mkPassphrase {
  _entropy_bits_req : option float;
  _randnum_min : Z;
  _randnum_max : Z;
  _amount_w : option Z;
  _amount_n : option Z;
  _passwordlen : option Z;
  _separator : string;
  _wordlist : option (list pyval);
  _wordlist_entropy_bits : option float;
  _password_use_lowercase : bool;
  _password_use_uppercase : bool;
  _password_use_digits : bool;
  _password_use_punctuation : bool;
  last_result : option (list item)
}.

(** Assignments to one attribute. *)
Definition set_entropy_bits_req (v : option float) (p : Passphrase) :=
  mkPassphrase v (_randnum_min p) (_randnum_max p) (_amount_w p) (_amount_n p)
    (_passwordlen p) (_separator p) (_wordlist p) (_wordlist_entropy_bits p)
    (_password_use_lowercase p) (_password_use_uppercase p)
    (_password_use_digits p) (_password_use_punctuation p) (last_result p).

Definition set_randnum_min (v : Z) (p : Passphrase) :=
  mkPassphrase (_entropy_bits_req p) v (_randnum_max p) (_amount_w p)
    (_amount_n p) (_passwordlen p) (_separator p) (_wordlist p)
    (_wordlist_entropy_bits p) (_password_use_lowercase p)
    (_password_use_uppercase p) (_password_use_digits p)
    (_password_use_punctuation p) (last_result p).

Definition set_randnum_max (v : Z) (p : Passphrase) :=
  mkPassphrase (_entropy_bits_req p) (_randnum_min p) v (_amount_w p)
    (_amount_n p) (_passwordlen p) (_separator p) (_wordlist p)
    (_wordlist_entropy_bits p) (_password_use_lowercase p)
    (_password_use_uppercase p) (_password_use_digits p)
    (_password_use_punctuation p) (last_result p).

Definition set_amount_w (v : option Z) (p : Passphrase) :=
  mkPassphrase (_entropy_bits_req p) (_randnum_min p) (_randnum_max p) v
    (_amount_n p) (_passwordlen p) (_separator p) (_wordlist p)
    (_wordlist_entropy_bits p) (_password_use_lowercase p)
    (_password_use_uppercase p) (_password_use_digits p)
    (_password_use_punctuation p) (last_result p).

Definition set_amount_n (v : option Z) (p : Passphrase) :=
  mkPassphrase (_entropy_bits_req p) (_randnum_min p) (_randnum_max p)
    (_amount_w p) v (_passwordlen p) (_separator p) (_wordlist p)
    (_wordlist_entropy_bits p) (_password_use_lowercase p)
    (_password_use_uppercase p) (_password_use_digits p)
    (_password_use_punctuation p) (last_result p).

Definition set_passwordlen (v : option Z) (p : Passphrase) :=
  mkPassphrase (_entropy_bits_req p) (_randnum_min p) (_randnum_max p)
    (_amount_w p) (_amount_n p) v (_separator p) (_wordlist p)
    (_wordlist_entropy_bits p) (_password_use_lowercase p)
    (_password_use_uppercase p) (_password_use_digits p)
    (_password_use_punctuation p) (last_result p).

Definition set_separator (v : string) (p : Passphrase) :=
  mkPassphrase (_entropy_bits_req p) (_randnum_min p) (_randnum_max p)
    (_amount_w p) (_amount_n p) (_passwordlen p) v (_wordlist p)
    (_wordlist_entropy_bits p) (_password_use_lowercase p)
    (_password_use_uppercase p) (_password_use_digits p)
    (_password_use_punctuation p) (last_result p).

Definition set_wordlist (v : option (list pyval)) (p : Passphrase) :=
  mkPassphrase (_entropy_bits_req p) (_randnum_min p) (_randnum_max p)
    (_amount_w p) (_amount_n p) (_passwordlen p) (_separator p) v
    (_wordlist_entropy_bits p) (_password_use_lowercase p)
    (_password_use_uppercase p) (_password_use_digits p)
    (_password_use_punctuation p) (last_result p).

Definition set_wordlist_entropy_bits (v : option float) (p : Passphrase) :=
  mkPassphrase (_entropy_bits_req p) (_randnum_min p) (_randnum_max p)
    (_amount_w p) (_amount_n p) (_passwordlen p) (_separator p) (_wordlist p)
    v (_password_use_lowercase p) (_password_use_uppercase p)
    (_password_use_digits p) (_password_use_punctuation p) (last_result p).

Definition set_password_use_lowercase (v : bool) (p : Passphrase) :=
  mkPassphrase (_entropy_bits_req p) (_randnum_min p) (_randnum_max p)
    (_amount_w p) (_amount_n p) (_passwordlen p) (_separator p) (_wordlist p)
    (_wordlist_entropy_bits p) v (_password_use_uppercase p)
    (_password_use_digits p) (_password_use_punctuation p) (last_result p).

Definition set_password_use_uppercase (v : bool) (p : Passphrase) :=
  mkPassphrase (_entropy_bits_req p) (_randnum_min p) (_randnum_max p)
    (_amount_w p) (_amount_n p) (_passwordlen p) (_separator p) (_wordlist p)
    (_wordlist_entropy_bits p) (_password_use_lowercase p) v
    (_password_use_digits p) (_password_use_punctuation p) (last_result p).

Definition set_password_use_digits (v : bool) (p : Passphrase) :=
  mkPassphrase (_entropy_bits_req p) (_randnum_min p) (_randnum_max p)
    (_amount_w p) (_amount_n p) (_passwordlen p) (_separator p) (_wordlist p)
    (_wordlist_entropy_bits p) (_password_use_lowercase p)
    (_password_use_uppercase p) v (_password_use_punctuation p)
    (last_result p).

Definition set_password_use_punctuation (v : bool) (p : Passphrase) :=
  mkPassphrase (_entropy_bits_req p) (_randnum_min p) (_randnum_max p)
    (_amount_w p) (_amount_n p) (_passwordlen p) (_separator p) (_wordlist p)
    (_wordlist_entropy_bits p) (_password_use_lowercase p)
    (_password_use_uppercase p) (_password_use_digits p) v (last_result p).

Definition set_last_result (v : option (list item)) (p : Passphrase) :=
  mkPassphrase (_entropy_bits_req p) (_randnum_min p) (_randnum_max p)
    (_amount_w p) (_amount_n p) (_passwordlen p) (_separator p) (_wordlist p)
    (_wordlist_entropy_bits p) (_password_use_lowercase p)
    (_password_use_uppercase p) (_password_use_digits p)
    (_password_use_punctuation p) v.

(** ** Methods as state transformers

    A method runs on the object and on the state [W] of the random source;
    it ends with a value or with an exception, and in both cases with the
    object as the statements run so far left it. *)
Definition M (W A : Type) : Type :=
  Passphrase -> W -> result A * Passphrase * W.

Definition ret {W A} (a : A) : M W A := fun self w => (Ok a, self, w).

Definition raise {W A} (k : exn_kind) (msg : string) : M W A :=
  fun self w => (Err (Raise k msg), self, w).

Definition bind {W A B} (m : M W A) (k : A -> M W B) : M W B :=
  fun self w =>
    match m self w with
    | (Ok a, self', w') => k a self' w'
    | (Err e, self', w') => (Err e, self', w')
    end.

(** Reading [self]. *)
Definition get {W A} (f : Passphrase -> A) : M W A :=
  fun self w => (Ok (f self), self, w).

(** Assigning to an attribute of [self]. *)
Definition assign {W} (f : Passphrase -> Passphrase) : M W unit :=
  fun self w => (Ok tt, f self, w).

(** A call that may raise and touches nothing. *)
Definition call {W A} (r : result A) : M W A :=
  fun self w => (r, self, w).

(** A call into the random source. *)
Definition draw {W A} (f : W -> result A * W) : M W A :=
  fun self w => let (r, w') := f w in (r, self, w').

(** [if c: raise k(msg)]. *)
Definition raise_if {W} (c : bool) (k : exn_kind) (msg : string) : M W unit :=
  if c then raise k msg else ret tt.

Declare Scope method_scope.
Delimit Scope method_scope with method.
Notation "x <- m ;; k" := (bind m (fun x => k))
  (at level 61, m at next level, right associativity) : method_scope.
Notation "m ;;; k" := (bind m (fun _ => k))
  (at level 61, right associativity) : method_scope.

(** [for _ in range(0, n): acc.append(body())]. *)
Fixpoint append_each {W A} (n : nat) (body : M W A) (acc : list A)
  : M W (list A) :=
  match n with
  | O => ret acc
  | S n' => bind body (fun a => append_each n' body (acc ++ [a]))
  end.

(** The same, for code that has no object at hand. *)
Definition rbind {A B} (r : result A) (k : A -> result B) : result B :=
  match r with
  | Ok a => k a
  | Err e => Err e
  end.

Fixpoint map_result {A B} (f : A -> result B) (l : list A)
  : result (list B) :=
  match l with
  | [] => Ok []
  | a :: l' =>
      rbind (f a) (fun b => rbind (map_result f l') (fun bs => Ok (b :: bs)))
  end.

(** ** The collaborating modules

    [passphrase.py] imports them; their code is not part of this file, so
    the methods take them as interfaces. *)

(** [settings]: the default bounds of the random numbers. *)
Class Settings : Type := {
  MIN_NUM : Z;
  MAX_NUM : Z
}.

(** [wordlist]: the built-in word list and its entropy per word. *)
Class Wordlist : Type := {
  EFF_LONG_WORDLIST : list pyval;
  EFF_LONG_WORDLIST_ENTROPY : float
}.

(** [calc]: the entropy arithmetic. *)
Class Calc : Type := {
  calc_password_length_needed : float -> string -> result Z;
  calc_words_amount_needed : float -> float -> float -> Z -> result Z;
  calc_entropy_bits_nrange : pyval -> pyval -> result float;
  calc_passphrase_entropy : Z -> float -> float -> Z -> result float;
  calc_password_entropy : Z -> string -> result float;
  calc_entropy_bits : pyval -> result float
}.

(** [secrets]: the random source, whose state is a [W]. *)
Class Secrets (W : Type) : Type := {
  randchoice : forall {A : Type}, list A -> W -> result A * W;
  randhex : Z -> W -> result string * W;
  randbetween : Z -> Z -> W -> result Z * W
}.

(** [aux]: the helpers of the class [Aux] that work on a generated
    sequence. *)
Class Aux : Type := {
  lowercase_count : list item -> result Z;
  make_all_uppercase : list item -> result (list item);
  make_chars_uppercase : list item -> Z -> result (list item)
}.

(** What the methods ask of the file system: [Aux.isfile_notempty], and
    Python's [open(path, mode='rt')] read to the end (the lines of the file,
    each with its line end). *)
Class TextFiles : Type := {
  isfile_notempty : string -> result bool;
  open_rt : string -> result (list string)
}.

(** The name of a value's type, for error messages. *)
Definition type_name (v : pyval) : string :=
  match v with
  | PyNone => "NoneType"
  | PyBool _ => "bool"
  | PyInt _ => "int"
  | PyFloat _ => "float"
  | PyStr _ => "str"
  | PyList _ => "list"
  | PyTuple _ => "tuple"
  end.

(** [word.lower()] on an element of the word list: only [str] has the
    method. *)
Definition py_lower (word : pyval) : result item :=
  match word with
  | PyStr s => Ok (IStr (lower s))
  | v =>
      Err (Raise AttributeError
             ("'" ++ type_name v ++ "' object has no attribute 'lower'"))
  end.

(** ** The methods of [Passphrase] *)

Section Methods.

Context {W : Type}.
Context {settings : Settings} {builtin : Wordlist} {calc : Calc}.
Context {secrets : Secrets W} {aux : Aux} {files : TextFiles}.

Local Open Scope method_scope.

Definition entropy_bits_req_setter (entropybits : pyval) : M W unit :=
  match as_number entropybits with
  | None => raise TypeError "entropy_bits_req can only be int or float"
  | Some x =>
      raise_if (number_negative x)
        ValueError "entropy_bits_req should be greater than 0" ;;;
      f <- call (float_of_number x) ;;
      assign (set_entropy_bits_req (Some f))
  end.

Definition randnum_min_setter (randnum : pyval) : M W unit :=
  match as_int randnum with
  | None => raise TypeError "randnum_min can only be int"
  | Some z =>
      raise_if (z <? 0) ValueError "randnum_min should be greater than 0" ;;;
      assign (set_randnum_min z)
  end.

Definition randnum_max_setter (randnum : pyval) : M W unit :=
  match as_int randnum with
  | None => raise TypeError "randnum_max can only be int"
  | Some z =>
      raise_if (z <? 0) ValueError "randnum_max should be greater than 0" ;;;
      assign (set_randnum_max z)
  end.

Definition amount_w_setter (amount : pyval) : M W unit :=
  match as_int amount with
  | None => raise TypeError "amount_w can only be int"
  | Some z =>
      raise_if (z <? 0) ValueError "amount_w should be greater than 0" ;;;
      assign (set_amount_w (Some z))
  end.

Definition amount_n_setter (amount : pyval) : M W unit :=
  match as_int amount with
  | None => raise TypeError "amount_n can only be int"
  | Some z =>
      raise_if (z <? 0) ValueError "amount_n should be greater than 0" ;;;
      assign (set_amount_n (Some z))
  end.

Definition passwordlen_setter (length : pyval) : M W unit :=
  match as_int length with
  | None => raise TypeError "passwordlen can only be int"
  | Some z =>
      raise_if (z <? 0) ValueError "passwordlen should be greater than 0" ;;;
      assign (set_passwordlen (Some z))
  end.

Definition separator_setter (sep : pyval) : M W unit :=
  match sep with
  | PyStr s => assign (set_separator s)
  | _ => raise TypeError "separator can only be string"
  end.

Definition wordlist_setter (words : pyval) : M W unit :=
  match words with
  | PyList l | PyTuple l =>
      assign (set_wordlist (Some l)) ;;;
      assign (set_wordlist_entropy_bits None)
  | _ => raise TypeError "wordlist can only be list or tuple"
  end.

Definition password_use_lowercase_setter (use_lowercase : pyval) : M W unit :=
  assign (set_password_use_lowercase (truth use_lowercase)).

Definition password_use_uppercase_setter (use_uppercase : pyval) : M W unit :=
  assign (set_password_use_uppercase (truth use_uppercase)).

Definition password_use_digits_setter (use_digits : pyval) : M W unit :=
  assign (set_password_use_digits (truth use_digits)).

Definition password_use_punctuation_setter (use_punctuation : pyval)
  : M W unit :=
  assign (set_password_use_punctuation (truth use_punctuation)).

Definition _read_words_from_wordfile (inputfile : string)
  : result (list pyval) :=
  rbind (open_rt inputfile) (fun lines =>
  Ok (map (fun word => PyStr (strip word)) lines)).

Definition _read_words_from_diceware (inputfile : string)
  : result (list pyval) :=
  rbind (open_rt inputfile) (fun lines =>
  map_result
    (fun word =>
       match nth_error (split word) 1 with
       | Some w => Ok (PyStr w)
       | None => Err (Raise IndexError "list index out of range")
       end)
    lines).

(** [_get_password_characters(cathegorized=True)]. *)
Definition _get_password_characters_group (self : Passphrase) : list string :=
  let group : list string := [] in
  let group :=
    if _password_use_lowercase self then (group ++ [ascii_lowercase])%list
    else group in
  let group :=
    if _password_use_uppercase self then (group ++ [ascii_uppercase])%list
    else group in
  let group :=
    if _password_use_digits self then (group ++ [digits])%list else group in
  let group :=
    if _password_use_punctuation self then (group ++ [punctuation])%list
    else group in
  group.

(** [_get_password_characters()]. *)
Definition _get_password_characters (self : Passphrase) : string :=
  join_empty (_get_password_characters_group self).

(** [__str__]. *)
Definition __str__ (self : Passphrase) : string :=
  match last_result self with
  | None | Some [] => ""
  | Some result =>
      let separator_len := String.length (_separator self) in
      let joined :=
        join_empty (map (fun w => w ++ _separator self) (map str result)) in
      if (0 <? separator_len)%nat then drop_last separator_len joined
      else joined
  end.

(** The static method [entropy_bits]. *)
Definition entropy_bits (lst : pyval) : result float :=
  match lst with
  | PyList l | PyTuple l =>
      let size := List.length l in
      if (size =? 2)%nat
         && isinstance_int_float (nth 0 l PyNone)
         && isinstance_int_float (nth 1 l PyNone)
      then calc_entropy_bits_nrange (nth 0 l PyNone) (nth 1 l PyNone)
      else calc_entropy_bits lst
  | _ => Err (Raise TypeError "lst must be a list or a tuple")
  end.

Definition load_internal_wordlist : M W unit :=
  assign (set_wordlist (Some EFF_LONG_WORDLIST)) ;;;
  assign (set_wordlist_entropy_bits (Some EFF_LONG_WORDLIST_ENTROPY)).

Definition import_words_from_file (inputfile : string) (is_diceware : bool)
  : M W unit :=
  ok <- call (isfile_notempty inputfile) ;;
  raise_if (negb ok) FileNotFoundError
    ("Input file does not exists, is not valid or is empty: " ++ inputfile) ;;;
  assign (set_wordlist_entropy_bits None) ;;;
  if is_diceware then
    words <- call (_read_words_from_diceware inputfile) ;;
    assign (set_wordlist (Some words))
  else
    words <- call (_read_words_from_wordfile inputfile) ;;
    assign (set_wordlist (Some words)).

(** The state [__init__] has built when it comes to look at [inputfile]. *)
Definition initial : Passphrase :=
  {| _randnum_min := MIN_NUM;
     _randnum_max := MAX_NUM;
     _separator := " ";
     _password_use_lowercase := true;
     _password_use_uppercase := true;
     _password_use_digits := true;
     _password_use_punctuation := true;
     _passwordlen := None;
     _amount_n := None;
     _amount_w := None;
     _entropy_bits_req := None;
     _wordlist := None;
     _wordlist_entropy_bits := None;
     last_result := None |}.

(** The object [__init__] receives: it has no attribute yet. What stands
    here in their place is never read: [__init__] assigns every one. *)
Definition blank : Passphrase :=
  {| _randnum_min := 0;
     _randnum_max := 0;
     _separator := EmptyString;
     _password_use_lowercase := false;
     _password_use_uppercase := false;
     _password_use_digits := false;
     _password_use_punctuation := false;
     _passwordlen := None;
     _amount_n := None;
     _amount_w := None;
     _entropy_bits_req := None;
     _wordlist := None;
     _wordlist_entropy_bits := None;
     last_result := None |}.

Definition __init__ (inputfile : option string) (is_diceware : bool)
  : M W unit :=
  assign (set_randnum_min MIN_NUM) ;;;
  assign (set_randnum_max MAX_NUM) ;;;
  assign (set_separator " ") ;;;
  assign (set_password_use_lowercase true) ;;;
  assign (set_password_use_uppercase true) ;;;
  assign (set_password_use_digits true) ;;;
  assign (set_password_use_punctuation true) ;;;
  assign (set_passwordlen None) ;;;
  assign (set_amount_n None) ;;;
  assign (set_amount_w None) ;;;
  assign (set_entropy_bits_req None) ;;;
  assign (set_wordlist None) ;;;
  assign (set_wordlist_entropy_bits None) ;;;
  assign (set_last_result None) ;;;
  match inputfile with
  | Some f =>
      if String.eqb f "internal" then load_internal_wordlist
      else import_words_from_file f is_diceware
  | None => ret tt
  end.

(** [Passphrase(inputfile, is_diceware)]: the new object, or the exception
    of [__init__]. *)
Definition Passphrase_new (inputfile : option string) (is_diceware : bool)
  (w : W) : result Passphrase * W :=
  match __init__ inputfile is_diceware blank w with
  | (Ok _, self, w') => (Ok self, w')
  | (Err e, _, w') => (Err e, w')
  end.

(** [not self.wordlist]: the word list is unset or empty. *)
Definition wordlist_missing (self : Passphrase) : bool :=
  match _wordlist self with
  | None | Some [] => true
  | Some _ => false
  end.

(** [self.wordlist] as the sequence the calls receive. *)
Definition wordlist_seq (self : Passphrase) : list pyval :=
  match _wordlist self with
  | Some l => l
  | None => []
  end.

Definition is_None {A} (o : option A) : bool :=
  match o with None => true | Some _ => false end.

(** The entropy per word the two passphrase queries use: the cached value
    when there is one (and it is not zero), a fresh computation otherwise. *)
Definition wordlist_entropy (self : Passphrase) : result float :=
  match _wordlist_entropy_bits self with
  | Some c =>
      if float_truth c then Ok c else entropy_bits (PyList (wordlist_seq self))
  | None => entropy_bits (PyList (wordlist_seq self))
  end.

Definition password_length_needed : M W Z :=
  characters <- get _get_password_characters ;;
  req <- get _entropy_bits_req ;;
  match req with
  | Some req =>
      if String.eqb characters "" then
        raise ValueError
          ("Can't calculate the password length needed: entropy_bits_req "
           ++ "isn't set or the character set is empty")
      else call (calc_password_length_needed req characters)
  | None =>
      raise ValueError
        ("Can't calculate the password length needed: entropy_bits_req "
         ++ "isn't set or the character set is empty")
  end.

Definition words_amount_needed : M W Z :=
  req <- get _entropy_bits_req ;;
  amount_n <- get _amount_n ;;
  missing <- get wordlist_missing ;;
  match req, amount_n, missing with
  | Some req, Some amount_n, false =>
      rmin <- get _randnum_min ;;
      rmax <- get _randnum_max ;;
      entropy_n <- call (entropy_bits (PyTuple [PyInt rmin; PyInt rmax])) ;;
      entropy_w <- bind (get wordlist_entropy) call ;;
      call (calc_words_amount_needed req entropy_w entropy_n amount_n)
  | _, _, _ =>
      raise ValueError
        ("Can't calculate the words amount needed: wordlist is empty or "
         ++ "entropy_bits_req or amount_n isn't set")
  end.

Definition generated_password_entropy : M W float :=
  characters <- get _get_password_characters ;;
  passwordlen <- get _passwordlen ;;
  match passwordlen with
  | Some passwordlen =>
      if String.eqb characters "" then
        raise ValueError
          ("Can't calculate the password entropy: character set is empty "
           ++ "or passwordlen isn't set")
      else if passwordlen =? 0 then ret float_zero
      else call (calc_password_entropy passwordlen characters)
  | None =>
      raise ValueError
        ("Can't calculate the password entropy: character set is empty "
         ++ "or passwordlen isn't set")
  end.

Definition generated_passphrase_entropy : M W float :=
  amount_w <- get _amount_w ;;
  amount_n <- get _amount_n ;;
  missing <- get wordlist_missing ;;
  match amount_w, amount_n, missing with
  | Some amount_w, Some amount_n, false =>
      if (amount_n =? 0) && (amount_w =? 0) then ret float_zero
      else
        rmin <- get _randnum_min ;;
        rmax <- get _randnum_max ;;
        entropy_n <- call (entropy_bits (PyTuple [PyInt rmin; PyInt rmax])) ;;
        entropy_w <- bind (get wordlist_entropy) call ;;
        call (calc_passphrase_entropy amount_w entropy_w entropy_n amount_n)
  | _, _, _ =>
      raise ValueError
        ("Can't calculate the passphrase entropy: wordlist is empty or "
         ++ "amount_n or amount_w isn't set")
  end.

(** The directive [generate] goes by: a negative one smaller in size than
    the count of lowercase is taken off that count. *)
Definition effective_uppercase (lowercase uppercase : Z) : Z :=
  if (uppercase <? 0) && (lowercase >? uppercase * -1)
  then lowercase + uppercase
  else uppercase.

(** The block of [generate] under [# Handle uppercase]: [passphrase] holds
    the words just drawn, [uppercase] the directive ([None] when it is
    Python's [None]). *)
Definition handle_uppercase (passphrase : list item) (uppercase : option Z)
  : result (list item) :=
  rbind (lowercase_count passphrase) (fun lowercase =>
  match passphrase, uppercase with
  | _ :: _, Some uppercase =>
      let uppercase := effective_uppercase lowercase uppercase in
      if (uppercase =? 0) || (uppercase >? lowercase) then
        make_all_uppercase passphrase
      else if uppercase >? 0 then
        make_chars_uppercase passphrase uppercase
      else Ok passphrase
  | _, _ => Ok passphrase
  end).

(** The type check of [generate]'s argument. *)
Definition uppercase_directive (uppercase : pyval) : result (option Z) :=
  match uppercase with
  | PyNone => Ok None
  | v =>
      match as_int v with
      | Some u => Ok (Some u)
      | None => Err (Raise TypeError "uppercase must be an integer number")
      end
  end.

Definition generate (uppercase : pyval) : M W (list item) :=
  amount_n <- get _amount_n ;;
  amount_w <- get _amount_w ;;
  missing <- get wordlist_missing ;;
  match amount_n, amount_w, missing with
  | Some amount_n, Some amount_w, false =>
      uppercase <- call (uppercase_directive uppercase) ;;
      passphrase <-
        append_each (Z.to_nat amount_w)
          (wordlist <- get wordlist_seq ;;
           word <- draw (randchoice wordlist) ;;
           call (py_lower word))
          [] ;;
      passphrase <- call (handle_uppercase passphrase uppercase) ;;
      passphrase <-
        append_each (Z.to_nat amount_n)
          (rmin <- get _randnum_min ;;
           rmax <- get _randnum_max ;;
           number <- draw (randbetween rmin rmax) ;;
           ret (IInt number))
          passphrase ;;
      assign (set_last_result (Some passphrase)) ;;;
      ret passphrase
  | _, _, _ =>
      raise ValueError
        ("Can't generate passphrase: wordlist is empty or amount_n or "
         ++ "amount_w isn't set")
  end.

Definition generate_password : M W (list item) :=
  characterset <- get _get_password_characters ;;
  passwordlen <- get _passwordlen ;;
  match passwordlen with
  | Some passwordlen =>
      if String.eqb characterset "" then
        raise ValueError
          ("Can't generate password: character set is empty or "
           ++ "passwordlen isn't set")
      else
        password <-
          append_each (Z.to_nat passwordlen)
            (c <- draw (randchoice (list_ascii_of_string characterset)) ;;
             ret (IStr (String c "")))
            [] ;;
        assign (set_last_result (Some password)) ;;;
        ret password
  | None =>
      raise ValueError
        ("Can't generate password: character set is empty or "
         ++ "passwordlen isn't set")
  end.

Definition generate_uuid4 : M W (list item) :=
  hexstr <- draw (randhex 30) ;;
  variant <- draw (randbetween 8 11) ;;
  let uuid4 :=
    [ IStr (slice 0 8 hexstr);
      IStr (slice 8 12 hexstr);
      IStr ("4" ++ slice 12 15 hexstr);
      IStr (format_x variant ++ slice 15 18 hexstr);
      IStr (slice_from 18 hexstr) ] in
  assign (set_last_result (Some uuid4)) ;;;
  ret uuid4.

End Methods.

(** ** Instances of the collaborating modules *)

(** *** Files *)

Inductive node : Type :=
| Directory
| File (content : string).

(** What a path names, if anything. *)
Definition FileSystem : Type := string -> option node.

Definition newline : ascii := ascii_of_nat 10.

(** The lines of a text, each with its line feed; [cur] is the line being
    read, reversed. *)
Fixpoint readlines_from (cur : list ascii) (content : string) : list string :=
  match content with
  | EmptyString =>
      match cur with
      | [] => []
      | _ => [string_of_list_ascii (rev cur)]
      end
  | String c rest =>
      if Ascii.eqb c newline
      then string_of_list_ascii (rev (c :: cur)) :: readlines_from [] rest
      else readlines_from (c :: cur) rest
  end.

Definition readlines (content : string) : list string :=
  readlines_from [] content.

Definition fs_open (fs : FileSystem) (path : string) : result (list string) :=
  match fs path with
  | Some (File content) => Ok (readlines content)
  | Some Directory =>
      Err (Raise IsADirectoryError ("Is a directory: " ++ path))
  | None =>
      Err (Raise FileNotFoundError ("No such file or directory: " ++ path))
  end.

(** Modelled from the spec: [Aux.isfile_notempty] (the module [aux] is
    missing).  Loading fails if the path does not exist, is not a regular
    file, or is empty. *)
Definition spec_isfile_notempty (fs : FileSystem) (path : string)
  : result bool :=
  match fs path with
  | Some (File content) => Ok (negb (String.eqb content ""))
  | _ => Ok false
  end.

Definition fs_files (fs : FileSystem) : TextFiles :=
  {| isfile_notempty := spec_isfile_notempty fs;
     open_rt := fs_open fs |}.

(** *** Upper-casing *)

Definition item_upper (w : item) : item :=
  match w with
  | IStr s => IStr (upper s)
  | IInt z => IInt z
  end.

Definition item_isupper (w : item) : bool :=
  match w with
  | IStr s => isupper s
  | IInt _ => false
  end.

Definition item_islower (w : item) : bool :=
  match w with
  | IStr s => islower s
  | IInt _ => false
  end.

(** The characters of a string that pass a test. *)
Fixpoint count_string (f : ascii -> bool) (s : string) : nat :=
  match s with
  | EmptyString => O
  | String c s' => ((if f c then 1 else 0) + count_string f s')%nat
  end.

Definition item_count (f : ascii -> bool) (w : item) : nat :=
  match w with
  | IStr s => count_string f s
  | IInt _ => O
  end.

(** The lowercase characters of a sequence, all its words together. *)
Definition lowercase_chars (l : list item) : nat :=
  list_sum (map (item_count is_ascii_lower) l).

(** The uppercase characters of a sequence. *)
Definition uppercase_chars (l : list item) : nat :=
  list_sum (map (item_count is_ascii_upper) l).

(** The first [k] lowercase characters of a string made uppercase. *)
Fixpoint upper_first (k : nat) (s : string) : string :=
  match s, k with
  | EmptyString, _ => EmptyString
  | _, O => s
  | String c s', S k' =>
      if is_ascii_lower c then String (upper_char c) (upper_first k' s')
      else String c (upper_first k s')
  end.

(** The first [k] lowercase characters of a sequence made uppercase, word
    after word. *)
Fixpoint upper_first_items (k : nat) (l : list item) : list item :=
  match l with
  | [] => []
  | IStr s :: l' =>
      IStr (upper_first k s)
        :: upper_first_items (k - count_string is_ascii_lower s) l'
  | IInt z :: l' => IInt z :: upper_first_items k l'
  end.

(** Modelled from the spec: [Aux.lowercase_count] (the module [aux] is
    missing), in the unit the docstring of [generate] gives: what is counted
    is characters, the lowercase characters of the words, not words. *)
Definition char_lowercase_count (passphrase : list item) : result Z :=
  Ok (Z.of_nat (lowercase_chars passphrase)).

(** Modelled from the spec: [Aux.make_all_uppercase] (the module [aux] is
    missing).  Uppercase all words. *)
Definition char_make_all_uppercase (passphrase : list item)
  : result (list item) :=
  Ok (map item_upper passphrase).

(** Modelled from the spec: [Aux.make_chars_uppercase] (the module [aux] is
    missing), in the unit the docstring of [generate] gives: that many
    characters are made uppercase, not that many words. Which characters is
    the helper's choice; this one takes the first lowercase characters it
    meets. *)
Definition char_make_chars_uppercase (passphrase : list item) (uppercase : Z)
  : result (list item) :=
  Ok (upper_first_items (Z.to_nat uppercase) passphrase).

Definition char_aux : Aux :=
  {| lowercase_count := char_lowercase_count;
     make_all_uppercase := char_make_all_uppercase;
     make_chars_uppercase := char_make_chars_uppercase |}.

(** Modelled from the spec: the helpers of the module [aux] (missing), as
    far as the docstring of [generate] fixes them, whichever characters
    they choose: [lowercase_count] counts the lowercase characters,
    [make_all_uppercase] makes every word uppercase, and
    [make_chars_uppercase], given a count between [1] and the number of
    lowercase characters, makes that many lowercase characters uppercase and
    changes nothing else. *)
Definition counts_characters (aux : Aux) : Prop :=
  forall passphrase : list item,
    lowercase_count passphrase = Ok (Z.of_nat (lowercase_chars passphrase))
    /\ make_all_uppercase passphrase = Ok (map item_upper passphrase)
    /\ forall k : Z,
        0 < k <= Z.of_nat (lowercase_chars passphrase) ->
        exists r,
          make_chars_uppercase passphrase k = Ok r
          /\ map item_upper r = map item_upper passphrase
          /\ Z.of_nat (lowercase_chars r)
             = Z.of_nat (lowercase_chars passphrase) - k
          /\ Z.of_nat (uppercase_chars r)
             = Z.of_nat (uppercase_chars passphrase) + k.

(** *** A random source read from a tape *)

(** The raw samples of the source and the number of those already used. *)
Record Tape : Type := mkTape {
  samples : nat -> Z;
  cursor : nat
}.

Definition sample (t : Tape) : Z * Tape :=
  (samples t (cursor t), mkTape (samples t) (S (cursor t))).

Definition hex_digit (z : Z) : ascii :=
  let d := Z.to_nat (z mod 16) in
  if (d <? 10)%nat then ascii_of_nat (48 + d) else ascii_of_nat (87 + d).

Fixpoint tape_hex (n : nat) (t : Tape) : string * Tape :=
  match n with
  | O => ("", t)
  | S n' =>
      let (z, t1) := sample t in
      let (s, t2) := tape_hex n' t1 in
      (String (hex_digit z) s, t2)
  end.

(** Modelled from the spec: [randchoice] of the module [secrets] (missing).
    Selection of one element; fails with an [InvalidInput] error on an
    empty sequence. *)
Definition tape_randchoice {A : Type} (seq : list A) (t : Tape)
  : result A * Tape :=
  match seq with
  | [] => (Err (Raise ValueError "cannot choose from an empty sequence"), t)
  | a :: _ =>
      let (z, t') := sample t in
      (Ok (nth (Z.to_nat (z mod Z.of_nat (List.length seq))) seq a), t')
  end.

(** Modelled from the spec: [randbetween] of the module [secrets] (missing).
    An integer of the inclusive range; the spec leaves an empty range open,
    and it is refused here as [entropy_bits_of_range] refuses it. *)
Definition tape_randbetween (lo hi : Z) (t : Tape) : result Z * Tape :=
  if hi <? lo then (Err (Raise ValueError "empty range"), t)
  else
    let (z, t') := sample t in
    (Ok (lo + z mod (hi - lo + 1)), t').

(** [randhex] of the module [secrets] (missing), giving [per_unit]
    hexadecimal digits for each unit of its argument. *)
Definition tape_randhex (per_unit : nat) (n : Z) (t : Tape)
  : result string * Tape :=
  let (s, t') := tape_hex (per_unit * Z.to_nat n) t in
  (Ok s, t').

Definition tape_secrets (per_unit : nat) : Secrets Tape :=
  {| randchoice := @tape_randchoice;
     randhex := tape_randhex per_unit;
     randbetween := tape_randbetween |}.

(** Modelled from the spec: [randhex] of the module [secrets] (missing).
    [random_hex(byte_count)] is the lowercase hex encoding of [byte_count]
    random bytes: two digits for each byte. *)
Definition spec_secrets : Secrets Tape := tape_secrets 2.

(** The reading that the layout comment of [generate_uuid4] relies on
    (8-4-4-4-12, of which 30 digits are drawn): [randhex(n)] gives [n]
    hexadecimal digits. *)
Definition digit_secrets : Secrets Tape := tape_secrets 1.

(** A tape whose samples count up from [start]. *)
Definition counting_tape (start : Z) : Tape :=
  mkTape (fun i => start + Z.of_nat i) 0.

(** ** The vocabulary of the properties *)

(** *** Generated sequences *)

(** The elements [__str__] renders: none when [last_result] is unset. *)
Definition last_result_items (self : Passphrase) : list item :=
  match last_result self with
  | Some l => l
  | None => []
  end.

(** The parts of a generated sequence, concatenated. *)
Definition concat_items (l : list item) : string := join_empty (map str l).

(** The number of uppercase words of a sequence. *)
Definition uppercase_words (l : list item) : nat :=
  List.length (filter item_isupper l).

(** A lowercase hexadecimal digit. *)
Definition is_hex_char (c : ascii) : bool :=
  let n := ascii_code c in
  (((48 <=? n) && (n <=? 57)) || ((97 <=? n) && (n <=? 102)))%nat.

(** Every character of a string passes a test. *)
Fixpoint forall_string (f : ascii -> bool) (s : string) : bool :=
  match s with
  | EmptyString => true
  | String c s' => f c && forall_string f s'
  end.

(** A string of lowercase hexadecimal digits. *)
Definition is_hex (s : string) : bool := forall_string is_hex_char s.

(** The 94 printable characters of the four classes together. *)
Definition all_characters : string :=
  ascii_lowercase ++ ascii_uppercase ++ digits ++ punctuation.

(** *** Attributes and their setters *)

(** The settable attributes. *)
Inductive field : Type :=
| F_entropy_bits_req
| F_randnum_min
| F_randnum_max
| F_amount_w
| F_amount_n
| F_passwordlen
| F_separator
| F_wordlist
| F_password_use_lowercase
| F_password_use_uppercase
| F_password_use_digits
| F_password_use_punctuation.

(** The setter of an attribute. *)
Definition setter {W : Type} (f : field) : pyval -> M W unit :=
  match f with
  | F_entropy_bits_req => entropy_bits_req_setter
  | F_randnum_min => randnum_min_setter
  | F_randnum_max => randnum_max_setter
  | F_amount_w => amount_w_setter
  | F_amount_n => amount_n_setter
  | F_passwordlen => passwordlen_setter
  | F_separator => separator_setter
  | F_wordlist => wordlist_setter
  | F_password_use_lowercase => password_use_lowercase_setter
  | F_password_use_uppercase => password_use_uppercase_setter
  | F_password_use_digits => password_use_digits_setter
  | F_password_use_punctuation => password_use_punctuation_setter
  end.

(** The four [password_use_*] attributes. *)
Definition is_flag (f : field) : bool :=
  match f with
  | F_password_use_lowercase | F_password_use_uppercase
  | F_password_use_digits | F_password_use_punctuation => true
  | _ => false
  end.

(** The type and the range an attribute asks of an assigned value: a number
    that is not negative (an [int]; for [entropy_bits_req] an [int] or a
    [float]), a [str] for the separator, a [list] or [tuple] for the word
    list, anything for a flag. *)
Definition acceptable (f : field) (v : pyval) : bool :=
  match f with
  | F_entropy_bits_req =>
      match as_number v with
      | Some x => negb (number_negative x)
      | None => false
      end
  | F_randnum_min | F_randnum_max | F_amount_w | F_amount_n | F_passwordlen =>
      match as_int v with
      | Some z => 0 <=? z
      | None => false
      end
  | F_separator => isinstance_str v
  | F_wordlist => isinstance_list_tuple v
  | _ => true
  end.

(** The flag an attribute of that kind holds. *)
Definition flag_of (f : field) (self : Passphrase) : bool :=
  match f with
  | F_password_use_lowercase => _password_use_lowercase self
  | F_password_use_uppercase => _password_use_uppercase self
  | F_password_use_digits => _password_use_digits self
  | F_password_use_punctuation => _password_use_punctuation self
  | _ => false
  end.

(** A run of assignments through the setters, stopped by the first one that
    is refused. *)
Fixpoint assign_all {W : Type} (l : list (field * pyval)) : M W unit :=
  match l with
  | [] => ret tt
  | (f, v) :: l' => bind (setter f v) (fun _ => assign_all l')
  end.

(** *** The argument of [entropy_bits] *)

(** The shapes the query tells apart. *)
Inductive shape : Type :=
| NumericPair (a b : pyval)
| SymbolSet
| NotASequence.

(** The shape of an argument, in the words of the spec: a list or tuple of
    exactly two numbers is a range, any other list or tuple a symbol set. *)
Definition shape_of (lst : pyval) : shape :=
  match lst with
  | PyList [a; b] | PyTuple [a; b] =>
      if isinstance_int_float a && isinstance_int_float b
      then NumericPair a b
      else SymbolSet
  | PyList _ | PyTuple _ => SymbolSet
  | _ => NotASequence
  end.

(** *** Operations and what they leave of the object *)

(** The operations that may change the object. *)
Inductive operation : Type :=
| Assign (f : field) (v : pyval)
| LoadInternalWordlist
| ImportWordsFromFile (inputfile : string) (is_diceware : bool)
| Generate (uppercase : pyval)
| GeneratePassword
| GenerateUuid4.

(** The entropy queries. *)
Inductive query : Type :=
| EntropyBits (lst : pyval)
| PasswordLengthNeeded
| WordsAmountNeeded
| GeneratedPasswordEntropy
| GeneratedPassphraseEntropy.

(** A call whose value is dropped. *)
Definition discard {W A : Type} (m : M W A) : M W unit :=
  bind m (fun _ => ret tt).

(** An operation as a method call. *)
Definition perform {W : Type} {builtin : Wordlist} {secrets : Secrets W}
           {aux : Aux} {files : TextFiles} (op : operation) : M W unit :=
  match op with
  | Assign f v => setter f v
  | LoadInternalWordlist => load_internal_wordlist
  | ImportWordsFromFile inputfile is_diceware =>
      import_words_from_file inputfile is_diceware
  | Generate uppercase => discard (generate uppercase)
  | GeneratePassword => discard generate_password
  | GenerateUuid4 => discard generate_uuid4
  end.

(** A query as a method call. *)
Definition ask {W : Type} {calc : Calc} (q : query) : M W unit :=
  match q with
  | EntropyBits lst => discard (call (entropy_bits lst))
  | PasswordLengthNeeded => discard password_length_needed
  | WordsAmountNeeded => discard words_amount_needed
  | GeneratedPasswordEntropy => discard generated_password_entropy
  | GeneratedPassphraseEntropy => discard generated_passphrase_entropy
  end.

(** A computation that leaves the object as it found it, whatever its
    outcome. *)
Definition readonly {W A : Type} (m : M W A) : Prop :=
  forall self w, snd (fst (m self w)) = self.

(** A computation that leaves the object as it found it when it fails. *)
Definition atomic {W A : Type} (m : M W A) : Prop :=
  forall self w e self' w', m self w = (Err e, self', w') -> self' = self.

(** ** Sample data *)

(** Five lowercase words. *)
Definition five_words : list item :=
  [IStr "abacus"; IStr "abdomen"; IStr "ability"; IStr "ablaze"; IStr "able"].

(** Bounds for the examples: numbers of six digits. *)
Definition example_settings : Settings :=
  {| MIN_NUM := 100000; MAX_NUM := 999999 |}.

(** The object [Passphrase()] of the examples. *)
Definition example_object : Passphrase := @initial example_settings.

(** A built-in list of eight words, three bits of entropy each, for the
    examples. *)
Definition example_wordlist : Wordlist :=
  {| EFF_LONG_WORDLIST :=
       map PyStr ["abacus"; "abdomen"; "abdominal"; "abide"; "abiding";
                  "ability"; "ablaze"; "able"];
     EFF_LONG_WORDLIST_ENTROPY := S754_finite false 6755399441055744 (-51) |}.

(** A file system for the examples: a word file, a diceware file, a
    diceware file whose second line has one column, an empty file and a
    directory. *)
Definition example_fs : FileSystem :=
  fun path =>
    let nl := String newline "" in
    if String.eqb path "words.txt" then
      Some (File ("Abacus" ++ nl ++ "  abdomen " ++ nl))
    else if String.eqb path "dice.txt" then
      Some (File ("11111 abacus" ++ nl ++ "11112 abdomen" ++ nl))
    else if String.eqb path "broken.txt" then
      Some (File ("11111 abacus" ++ nl ++ "abdomen" ++ nl))
    else if String.eqb path "empty.txt" then Some (File "")
    else if String.eqb path "lists" then Some Directory
    else None.

(** The object of the examples after [load_internal_wordlist]. *)
Definition example_loaded : Passphrase :=
  set_wordlist_entropy_bits
    (Some (@EFF_LONG_WORDLIST_ENTROPY example_wordlist))
    (set_wordlist (Some (@EFF_LONG_WORDLIST example_wordlist))
       example_object).

(** The object of the examples, ready for [generate]: three words and one
    number. *)
Definition example_ready : Passphrase :=
  set_amount_w (Some 3) (set_amount_n (Some 1) example_loaded).

(** ** The vocabulary of the further properties *)

(** *** What the generators ask of the random source *)

(** [randchoice] answers with an element of the sequence it is given. *)
Definition chooses_members {W : Type} (secrets : Secrets W) : Prop :=
  forall (A : Type) (seq : list A) (w w' : W) (a : A),
    randchoice seq w = (Ok a, w') -> In a seq.

(** [randbetween] answers with an integer of the range it is given. *)
Definition draws_in_range {W : Type} (secrets : Secrets W) : Prop :=
  forall (lo hi z : Z) (w w' : W),
    randbetween lo hi w = (Ok z, w') -> lo <= z <= hi.

(** A word of the list, lower-cased. *)
Definition lowered_word_of (wordlist : list pyval) (x : item) : Prop :=
  exists s, In (PyStr s) wordlist /\ x = IStr (lower s).

(** A string of one character, taken from [characters]. *)
Definition character_of (characters : string) (x : item) : Prop :=
  exists c, In c (list_ascii_of_string characters) /\ x = IStr (String c "").

(** The message of [generate] for an object that is not ready. *)
Definition generate_not_ready : exn :=
  Raise ValueError
    ("Can't generate passphrase: wordlist is empty or amount_n or "
     ++ "amount_w isn't set").

(** The message of [generate_password] for an object that is not ready. *)
Definition generate_password_not_ready : exn :=
  Raise ValueError
    ("Can't generate password: character set is empty or "
     ++ "passwordlen isn't set").

(** *** The character classes *)

Definition is_digit_char (c : ascii) : bool :=
  ((48 <=? ascii_code c) && (ascii_code c <=? 57))%nat.

(** A printable ASCII character that is neither a letter, a digit nor the
    space. *)
Definition is_punctuation_char (c : ascii) : bool :=
  ((33 <=? ascii_code c) && (ascii_code c <=? 126))%nat
  && negb (is_ascii_lower c || is_ascii_upper c || is_digit_char c).

(** The classes an object has enabled accept the character. *)
Definition in_enabled_class (self : Passphrase) (c : ascii) : bool :=
  (_password_use_lowercase self && is_ascii_lower c)
  || (_password_use_uppercase self && is_ascii_upper c)
  || (_password_use_digits self && is_digit_char c)
  || (_password_use_punctuation self && is_punctuation_char c).

Definition count_if (b : bool) (n : nat) : nat := if b then n else O.

Fixpoint distinct (l : list ascii) : bool :=
  match l with
  | [] => true
  | c :: l' => negb (existsb (Ascii.eqb c) l') && distinct l'
  end.

(** The character set of an object with the given flags. *)
Definition characters_of (lowercase uppercase digit punct : bool) : string :=
  _get_password_characters
    (mkPassphrase None 0 0 None None None "" None None
       lowercase uppercase digit punct None).

(** *** Words read from a file *)

Definition first_is_space (s : string) : bool :=
  match s with
  | EmptyString => false
  | String c _ => is_space c
  end.

Fixpoint last_is_space (s : string) : bool :=
  match s with
  | EmptyString => false
  | String c EmptyString => is_space c
  | String _ s' => last_is_space s'
  end.

(** A string with whitespace in it. *)
Definition has_space (s : string) : bool := exists_string is_space s.

(** The word [_read_words_from_wordfile] makes of a line. *)
Definition stripped_word (x : pyval) : Prop :=
  exists s, x = PyStr s /\ first_is_space s = false /\ last_is_space s = false.

(** A line and the word that is the line without the whitespace around it:
    the line is whitespace, the word, whitespace, and the word neither
    starts nor ends with whitespace. *)
Definition stripped_of (line : string) (x : pyval) : Prop :=
  exists pre s post,
    x = PyStr s
    /\ line = (pre ++ s ++ post)%string
    /\ forall_string is_space pre = true
    /\ forall_string is_space post = true
    /\ first_is_space s = false
    /\ last_is_space s = false.

(** The word [_read_words_from_diceware] makes of a line. *)
Definition column_word (x : pyval) : Prop :=
  exists s, x = PyStr s /\ s <> "" /\ has_space s = false.

(** The columns of a line. *)
Definition columns (line : string) : nat := List.length (split line).

(** The second column of a line. *)
Definition second_column (line : string) : string := nth 1 (split line) "".

(** *** Messages of the queries *)

Definition password_length_unready : exn :=
  Raise ValueError
    ("Can't calculate the password length needed: entropy_bits_req "
     ++ "isn't set or the character set is empty").

Definition words_amount_unready : exn :=
  Raise ValueError
    ("Can't calculate the words amount needed: wordlist is empty or "
     ++ "entropy_bits_req or amount_n isn't set").

Definition password_entropy_unready : exn :=
  Raise ValueError
    ("Can't calculate the password entropy: character set is empty "
     ++ "or passwordlen isn't set").

Definition passphrase_entropy_unready : exn :=
  Raise ValueError
    ("Can't calculate the passphrase entropy: wordlist is empty or "
     ++ "amount_n or amount_w isn't set").

(** An object with its four character classes disabled. *)
Definition without_classes (self : Passphrase) : Passphrase :=
  set_password_use_lowercase false
    (set_password_use_uppercase false
       (set_password_use_digits false
          (set_password_use_punctuation false self))).

(** The reader [import_words_from_file] uses for a format. *)
Definition reader {files : TextFiles} (is_diceware : bool)
  : string -> result (list pyval) :=
  if is_diceware then _read_words_from_diceware
  else _read_words_from_wordfile.

(** The word either reader makes of a line. *)
Definition read_word (is_diceware : bool) : pyval -> Prop :=
  if is_diceware then column_word else stripped_word.

(** * Properties *)

(** ** Strings *)

Example split_diceware_line :
  split ("11111	abacus" ++ String (ascii_of_nat 10) "") = ["11111"; "abacus"].
Proof. reflexivity. Qed.

Example strip_line :
  strip ("  abacus " ++ String (ascii_of_nat 10) "") = "abacus".
Proof. reflexivity. Qed.

Example slice_clips : slice 2 9 "abcde" = "cde" /\ drop_last 2 "abcde" = "abc".
Proof. split; reflexivity. Qed.

Example format_x_variant : map format_x [8; 9; 10; 11] = ["8"; "9"; "a"; "b"].
Proof. reflexivity. Qed.

Example lower_upper : lower "AbC-1" = "abc-1" /\ upper "AbC-1" = "ABC-1".
Proof. split; reflexivity. Qed.

Lemma length_append (a b : string) :
  String.length (a ++ b) = (String.length a + String.length b)%nat.
Proof.
  induction a as [|c a IH]; simpl.
  - reflexivity.
  - now rewrite IH.
Qed.

Lemma append_empty_r (a : string) : a ++ "" = a.
Proof.
  induction a as [|c a IH]; simpl.
  - reflexivity.
  - now rewrite IH.
Qed.

Lemma append_assoc (a b c : string) : (a ++ b) ++ c = a ++ (b ++ c).
Proof.
  induction a as [|x a IH]; simpl.
  - reflexivity.
  - now rewrite IH.
Qed.

Lemma substring_0_0 (s : string) : substring 0 0 s = "".
Proof. destruct s; reflexivity. Qed.

Lemma substring_prefix (a b : string) :
  substring 0 (String.length a) (a ++ b) = a.
Proof.
  induction a as [|c a IH]; simpl.
  - apply substring_0_0.
  - now rewrite IH.
Qed.

Lemma drop_last_append (a b : string) :
  drop_last (String.length b) (a ++ b) = a.
Proof.
  unfold drop_last.
  rewrite length_append, Nat.add_sub.
  apply substring_prefix.
Qed.

(** Every element followed by the separator, concatenated, is the joined
    string followed by one more separator. *)
Lemma join_empty_with_separator (sep x : string) (xs : list string) :
  join_empty (map (fun w => w ++ sep) (x :: xs))
  = String.concat sep (x :: xs) ++ sep.
Proof.
  revert x.
  induction xs as [|y ys IH]; intros x.
  - simpl. now rewrite append_empty_r.
  - change (join_empty (map (fun w => w ++ sep) (x :: y :: ys)))
      with ((x ++ sep) ++ join_empty (map (fun w => w ++ sep) (y :: ys))).
    rewrite IH.
    change (String.concat sep (x :: y :: ys))
      with (x ++ sep ++ String.concat sep (y :: ys)).
    now rewrite !append_assoc.
Qed.

(** ** The stringified result *)

(** C9. For every state, [__str__] is the elements of [last_result], each
    rendered by [str], joined by the separator, with no separator after the
    last one; it is the empty string when [last_result] is unset or empty.
    The separator is any string, the empty one and longer ones included. *)
Theorem str_joins_last_result (self : Passphrase) :
  __str__ self
  = String.concat (_separator self) (map str (last_result_items self))
  /\ __str__ (set_last_result None self) = ""
  /\ __str__ (set_last_result (Some []) self) = "".
Proof.
  split; [|split; reflexivity].
  unfold __str__, last_result_items.
  destruct (last_result self) as [[|w ws]|]; try reflexivity.
  cbv zeta.
  change (map str (w :: ws)) with (str w :: map str ws).
  rewrite join_empty_with_separator.
  destruct (Nat.ltb_spec 0 (String.length (_separator self))) as [Hpos|Hzero].
  - apply drop_last_append.
  - assert (Hsep : _separator self = "").
    { destruct (_separator self); [reflexivity | simpl in Hzero; lia]. }
    rewrite Hsep. apply append_empty_r.
Qed.

Example str_of_mixed_result :
  __str__ (set_separator " - "
             (set_last_result (Some [IStr "correct"; IStr "HORSE"; IInt 407])
                (@initial {| MIN_NUM := 0; MAX_NUM := 9 |})))
  = "correct - HORSE - 407".
Proof. reflexivity. Qed.

(** ** The uppercase directive *)

Lemma upper_char_cases (c : ascii) :
  is_ascii_lower (upper_char c) = false
  /\ is_ascii_upper (upper_char c) = is_ascii_upper c || is_ascii_lower c
  /\ (is_ascii_lower c = true -> is_ascii_upper c = false).
Proof.
  destruct c as [[] [] [] [] [] [] [] []]; vm_compute; intuition congruence.
Qed.

Lemma upper_char_idempotent (c : ascii) :
  upper_char (upper_char c) = upper_char c.
Proof.
  destruct c as [[] [] [] [] [] [] [] []]; vm_compute; reflexivity.
Qed.

Lemma upper_char_fixes (c : ascii) :
  is_ascii_lower c = false -> upper_char c = c.
Proof. unfold upper_char. now intros ->. Qed.

(** What making the first [k] lowercase characters uppercase does to the
    counts of a string, and that it changes nothing but the case. *)
Lemma upper_first_counts (s : string) (k : nat) :
  count_string is_ascii_lower (upper_first k s)
  = (count_string is_ascii_lower s - k)%nat
  /\ count_string is_ascii_upper (upper_first k s)
     = (count_string is_ascii_upper s
        + Nat.min k (count_string is_ascii_lower s))%nat
  /\ upper (upper_first k s) = upper s.
Proof.
  unfold upper. revert k.
  induction s as [|c s IH]; intros k.
  - destruct k; repeat split.
  - destruct k as [|k].
    + simpl upper_first. repeat split; lia.
    + simpl upper_first.
      destruct (upper_char_cases c) as (Hnl & Hup & Hdis).
      destruct (is_ascii_lower c) eqn:Hc.
      * destruct (IH k) as (Hl & Hu & Heq).
        simpl. rewrite Hnl, Hup, Hc, (Hdis eq_refl), Hl, Hu, Heq.
        rewrite upper_char_idempotent.
        repeat split; simpl; lia.
      * destruct (IH (S k)) as (Hl & Hu & Heq).
        simpl. rewrite Hc, Hl, Hu, Heq.
        repeat split; simpl; lia.
Qed.

Lemma upper_first_items_counts (l : list item) (k : nat) :
  lowercase_chars (upper_first_items k l) = (lowercase_chars l - k)%nat
  /\ uppercase_chars (upper_first_items k l)
     = (uppercase_chars l + Nat.min k (lowercase_chars l))%nat
  /\ map item_upper (upper_first_items k l) = map item_upper l.
Proof.
  unfold lowercase_chars, uppercase_chars. revert k.
  induction l as [|[s|z] l IH]; intros k; simpl.
  - repeat split; lia.
  - destruct (upper_first_counts s k) as (Hl & Hu & Heq).
    destruct (IH (k - count_string is_ascii_lower s)%nat) as (Il & Iu & Ieq).
    rewrite Hl, Hu, Heq, Il, Iu, Ieq. repeat split; lia.
  - destruct (IH k) as (Il & Iu & Ieq).
    rewrite Il, Iu, Ieq. repeat split; lia.
Qed.

(** The helpers that take the first lowercase characters do what the
    docstring asks. *)
Lemma char_aux_counts_characters : counts_characters char_aux.
Proof.
  intros passphrase. split; [reflexivity|]. split; [reflexivity|].
  intros k Hk.
  destruct (upper_first_items_counts passphrase (Z.to_nat k)) as (Hl & Hu & Heq).
  exists (upper_first_items (Z.to_nat k) passphrase).
  split; [reflexivity|]. split; [exact Heq|]. split; lia.
Qed.

Lemma map_item_upper_idempotent (l : list item) :
  map item_upper (map item_upper l) = map item_upper l.
Proof.
  assert (Hs : forall s, upper (upper s) = upper s).
  { unfold upper. induction s as [|c s IH]; simpl; [reflexivity|].
    now rewrite upper_char_idempotent, IH. }
  induction l as [|[s|z] l IH]; simpl; [reflexivity | |]; rewrite IH;
    [now rewrite Hs | reflexivity].
Qed.

(** A sequence without a lowercase character is its own uppercase. *)
Lemma no_lowercase_upper (l : list item) :
  lowercase_chars l = 0%nat -> map item_upper l = l.
Proof.
  assert (Hs : forall s, count_string is_ascii_lower s = 0%nat -> upper s = s).
  { induction s as [|c s IH]; simpl; intros H; [reflexivity|].
    destruct (is_ascii_lower c) eqn:Hc; [discriminate|].
    unfold upper in *. simpl. rewrite (upper_char_fixes c Hc), IH; auto. }
  unfold lowercase_chars.
  induction l as [|[s|z] l IH]; simpl; intros H.
  - reflexivity.
  - rewrite Hs, IH by lia. reflexivity.
  - rewrite IH by lia. reflexivity.
Qed.

Lemma effective_uppercase_nonnegative (lowercase u : Z) :
  0 <= u -> effective_uppercase lowercase u = u.
Proof.
  intros Hu. unfold effective_uppercase.
  destruct (Z.ltb_spec u 0); [lia | reflexivity].
Qed.

Lemma effective_uppercase_negative (lowercase u : Z) :
  u < 0 ->
  (lowercase > - u -> effective_uppercase lowercase u = lowercase + u)
  /\ (lowercase <= - u -> effective_uppercase lowercase u = u).
Proof.
  intros Hu. unfold effective_uppercase.
  destruct (Z.ltb_spec u 0); [|lia].
  rewrite Z.gtb_ltb.
  destruct (Z.ltb_spec (u * -1) lowercase); simpl; split; intros; lia || reflexivity.
Qed.

Section UppercaseDirective.

Context {aux : Aux}.

(** The block on a sequence that is not empty, once the count is known. *)
Lemma handle_uppercase_nonempty (w : item) (ws : list item) (u lowercase : Z) :
  lowercase_count (w :: ws) = Ok lowercase ->
  handle_uppercase (w :: ws) (Some u)
  = if (effective_uppercase lowercase u =? 0)
       || (effective_uppercase lowercase u >? lowercase)
    then make_all_uppercase (w :: ws)
    else if effective_uppercase lowercase u >? 0
         then make_chars_uppercase (w :: ws) (effective_uppercase lowercase u)
         else Ok (w :: ws).
Proof. intros H. unfold handle_uppercase. now rewrite H. Qed.

(** C2, as the code has it. The directive counts characters, as the
    docstring of [generate] says. With helpers that do what the docstring
    asks, words without an uppercase character and [n] their lowercase
    characters, a positive directive [u] gives the same words up to case:
    entirely in uppercase when [u >= n], with exactly [u] characters made
    uppercase and the other [n - u] left lowercase when [0 < u < n]. *)
Theorem uppercase_positive_directive (words : list item) (u : Z) :
  counts_characters aux ->
  uppercase_chars words = 0%nat ->
  0 < u ->
  let n := Z.of_nat (lowercase_chars words) in
  exists r,
    handle_uppercase words (Some u) = Ok r
    /\ map item_upper r = map item_upper words
    /\ (n <= u -> r = map item_upper words)
    /\ (u < n ->
        Z.of_nat (uppercase_chars r) = u
        /\ Z.of_nat (lowercase_chars r) = n - u).
Proof.
  intros Haux Hnoupper Hu n.
  destruct (Haux words) as (Hcount & Hall & Hchars). fold n in Hcount, Hchars.
  destruct words as [|w ws].
  { exists []. unfold handle_uppercase. rewrite Hcount.
    repeat split; try reflexivity; exfalso; unfold n in *; simpl in *; lia. }
  rewrite (handle_uppercase_nonempty w ws u n Hcount).
  rewrite (effective_uppercase_nonnegative n u) by lia.
  destruct (Z.eqb_spec u 0) as [|_]; [lia|]. rewrite orb_false_l.
  rewrite !Z.gtb_ltb.
  destruct (Z.ltb_spec n u) as [Hbig|Hsmall].
  - exists (map item_upper (w :: ws)). split; [exact Hall|].
    split; [apply map_item_upper_idempotent|].
    split; [reflexivity | lia].
  - destruct (Z.ltb_spec 0 u) as [_|]; [|lia].
    destruct (Hchars u ltac:(lia)) as (r & Hr & Hsame & Hlow & Hup).
    exists r. split; [exact Hr|]. split; [exact Hsame|]. split.
    + intros Hn. assert (Hzero : lowercase_chars r = 0%nat) by lia.
      rewrite <- Hsame. symmetry. now apply no_lowercase_upper.
    + intros _. split; lia.
Qed.

(** C1, as the code has it. The directive counts characters, as the
    docstring of [generate] says. With helpers that do what the docstring
    asks, words without an uppercase character and [n] their lowercase
    characters, a negative directive [u] never becomes [0]. When [n > -u]
    it becomes [n + u], and the result is the same words up to case with
    exactly [n + u] characters made uppercase and the other [-u] left
    lowercase; when [n <= -u] it stays [u] and the words are left as they
    are. Only the directive [0] itself makes every word uppercase. *)
Theorem uppercase_negative_directive (words : list item) (u : Z) :
  counts_characters aux ->
  uppercase_chars words = 0%nat ->
  u < 0 ->
  let n := Z.of_nat (lowercase_chars words) in
  effective_uppercase n u <> 0
  /\ (n > - u ->
      effective_uppercase n u = n + u
      /\ exists r,
          handle_uppercase words (Some u) = Ok r
          /\ map item_upper r = map item_upper words
          /\ Z.of_nat (uppercase_chars r) = n + u
          /\ Z.of_nat (lowercase_chars r) = - u)
  /\ (n <= - u ->
      effective_uppercase n u = u
      /\ handle_uppercase words (Some u) = Ok words)
  /\ handle_uppercase words (Some 0) = Ok (map item_upper words).
Proof.
  intros Haux Hnoupper Hu n.
  destruct (Haux words) as (Hcount & Hall & Hchars). fold n in Hcount, Hchars.
  destruct (effective_uppercase_negative n u Hu) as (Hbig & Hsmall).
  split.
  { destruct (Z_le_gt_dec n (- u)); [rewrite Hsmall | rewrite Hbig]; lia. }
  split; [|split].
  - intros Hn. split; [apply Hbig; lia|].
    destruct words as [|w ws]; [unfold n in Hn; simpl in Hn; lia|].
    rewrite (handle_uppercase_nonempty w ws u n Hcount).
    rewrite Hbig by lia.
    destruct (Z.eqb_spec (n + u) 0) as [|_]; [lia|].
    rewrite orb_false_l, !Z.gtb_ltb.
    destruct (Z.ltb_spec n (n + u)) as [|_]; [lia|].
    destruct (Z.ltb_spec 0 (n + u)) as [_|]; [|lia].
    destruct (Hchars (n + u) ltac:(lia)) as (r & Hr & Hsame & Hlow & Hup).
    exists r. split; [exact Hr|]. split; [exact Hsame|]. split; lia.
  - intros Hn. split; [apply Hsmall; lia|].
    destruct words as [|w ws].
    { unfold handle_uppercase. now rewrite Hcount. }
    rewrite (handle_uppercase_nonempty w ws u n Hcount).
    rewrite Hsmall by lia.
    destruct (Z.eqb_spec u 0) as [|_]; [lia|].
    rewrite orb_false_l, !Z.gtb_ltb.
    destruct (Z.ltb_spec n u) as [|_]; [lia|].
    destruct (Z.ltb_spec 0 u) as [|_]; [lia|]. reflexivity.
  - destruct words as [|w ws].
    { unfold handle_uppercase. now rewrite Hcount. }
    rewrite (handle_uppercase_nonempty w ws 0 n Hcount).
    rewrite (effective_uppercase_nonnegative n 0) by lia.
    exact Hall.
Qed.

End UppercaseDirective.

Lemma uppercase_positive_directive_witness :
  exists r,
    handle_uppercase (aux := char_aux) five_words (Some 2) = Ok r
    /\ map item_upper r = map item_upper five_words
    /\ Z.of_nat (uppercase_chars r) = 2
    /\ Z.of_nat (lowercase_chars r) = 30 - 2.
Proof.
  destruct (uppercase_positive_directive (aux := char_aux) five_words 2
              char_aux_counts_characters eq_refl eq_refl)
    as (r & Hr & Hsame & _ & Hcount).
  exists r. split; [exact Hr|]. split; [exact Hsame|].
  exact (Hcount eq_refl).
Defined.

(** C2 as the spec words it fails on five words of thirty characters: the
    directive [5], which is not less than the number of words, makes five
    characters uppercase and leaves twenty-five lowercase, so not every word
    is uppercase; the directive [2] makes two characters uppercase, and not
    two words. *)
Lemma uppercase_counts_characters_counterexample :
  List.length five_words = 5%nat
  /\ forallb item_islower five_words = true
  /\ (exists r,
        handle_uppercase (aux := char_aux) five_words (Some 5) = Ok r
        /\ uppercase_chars r = 5%nat
        /\ lowercase_chars r = 25%nat
        /\ r <> map item_upper five_words
        /\ forallb item_isupper r = false)
  /\ (exists r,
        handle_uppercase (aux := char_aux) five_words (Some 2) = Ok r
        /\ uppercase_chars r = 2%nat
        /\ uppercase_words r <> 2%nat).
Proof.
  split; [reflexivity|]. split; [reflexivity|]. split.
  - exists [IStr "ABACUs"; IStr "abdomen"; IStr "ability"; IStr "ablaze";
            IStr "able"].
    split; [vm_compute; reflexivity|]. split; [reflexivity|].
    split; [reflexivity|]. split; [discriminate | reflexivity].
  - exists [IStr "ABacus"; IStr "abdomen"; IStr "ability"; IStr "ablaze";
            IStr "able"].
    split; [vm_compute; reflexivity|]. split; [reflexivity|].
    vm_compute. discriminate.
Qed.

Example uppercase_2_of_30 :
  handle_uppercase (aux := char_aux) five_words (Some 2)
  = Ok [IStr "ABacus"; IStr "abdomen"; IStr "ability"; IStr "ablaze";
        IStr "able"].
Proof. vm_compute; reflexivity. Qed.

Lemma uppercase_negative_directive_witness :
  effective_uppercase 30 (-2) = 30 + -2
  /\ exists r,
      handle_uppercase (aux := char_aux) five_words (Some (-2)) = Ok r
      /\ map item_upper r = map item_upper five_words
      /\ Z.of_nat (uppercase_chars r) = 30 + -2
      /\ Z.of_nat (lowercase_chars r) = - -2.
Proof.
  destruct (uppercase_negative_directive (aux := char_aux) five_words (-2)
              char_aux_counts_characters eq_refl eq_refl)
    as (_ & Hbig & _).
  exact (Hbig eq_refl).
Defined.

(** C1 as the spec words it fails on five words of thirty characters. The
    directive [-5] does not become [0] but [25]: twenty-five characters are
    made uppercase and five are left lowercase, so the five words are not
    all uppercase. The directive [-2] becomes [28], not [3]. The directive
    [-30], the one as large as the count, stays as it is and leaves the
    words as they are. *)
Lemma uppercase_minus_n_counterexample :
  List.length five_words = 5%nat
  /\ forallb item_islower five_words = true
  /\ char_lowercase_count five_words = Ok 30
  /\ effective_uppercase 30 (-5) = 25
  /\ (exists r,
        handle_uppercase (aux := char_aux) five_words (Some (-5)) = Ok r
        /\ uppercase_chars r = 25%nat
        /\ lowercase_chars r = 5%nat
        /\ r <> map item_upper five_words
        /\ forallb item_isupper r = false)
  /\ effective_uppercase 30 (-2) = 28
  /\ (exists r,
        handle_uppercase (aux := char_aux) five_words (Some (-2)) = Ok r
        /\ uppercase_chars r = 28%nat)
  /\ effective_uppercase 30 (-30) = -30
  /\ handle_uppercase (aux := char_aux) five_words (Some (-30))
     = Ok five_words.
Proof.
  split; [reflexivity|]. split; [reflexivity|]. split; [reflexivity|].
  split; [reflexivity|]. split.
  { exists [IStr "ABACUS"; IStr "ABDOMEN"; IStr "ABILITY"; IStr "ABLAZe";
            IStr "able"].
    split; [vm_compute; reflexivity|]. split; [reflexivity|].
    split; [reflexivity|]. split; [discriminate | reflexivity]. }
  split; [reflexivity|]. split.
  { exists [IStr "ABACUS"; IStr "ABDOMEN"; IStr "ABILITY"; IStr "ABLAZE";
            IStr "ABle"].
    split; [vm_compute; reflexivity | reflexivity]. }
  split; [reflexivity | vm_compute; reflexivity].
Qed.

(** ** UUID version 4 *)

Lemma length_substring (s : string) (n m : nat) :
  String.length (substring n m s) = Nat.min m (String.length s - n).
Proof.
  revert n m.
  induction s as [|c s IH]; intros [|n] [|m]; simpl; try reflexivity;
    rewrite IH, ?Nat.sub_0_r; reflexivity.
Qed.

Lemma forall_string_append (f : ascii -> bool) (a b : string) :
  forall_string f (a ++ b) = forall_string f a && forall_string f b.
Proof.
  induction a as [|c a IH]; simpl.
  - reflexivity.
  - now rewrite IH, andb_assoc.
Qed.

Lemma forall_string_substring (f : ascii -> bool) (s : string) (n m : nat) :
  forall_string f s = true -> forall_string f (substring n m s) = true.
Proof.
  revert n m.
  induction s as [|c s IH]; intros [|n] [|m] H; simpl in *; try reflexivity.
  - apply andb_prop in H as [Hc Hs]. now rewrite Hc, IH.
  - apply andb_prop in H as [_ Hs]. now apply IH.
  - apply andb_prop in H as [_ Hs]. now apply IH.
Qed.

Section Uuid4.

Context {W : Type} {secrets : Secrets W}.

(** What [generate_uuid4] does once the random source has answered. *)
Lemma generate_uuid4_run (self : Passphrase) (w w1 w2 : W)
      (hexstr : string) (variant : Z) :
  randhex 30 w = (Ok hexstr, w1) ->
  randbetween 8 11 w1 = (Ok variant, w2) ->
  let uuid4 :=
    [ IStr (slice 0 8 hexstr);
      IStr (slice 8 12 hexstr);
      IStr ("4" ++ slice 12 15 hexstr);
      IStr (format_x variant ++ slice 15 18 hexstr);
      IStr (slice_from 18 hexstr) ] in
  generate_uuid4 self w = (Ok uuid4, set_last_result (Some uuid4) self, w2).
Proof.
  intros Hhex Hvar. unfold generate_uuid4, bind, draw.
  rewrite Hhex, Hvar. reflexivity.
Qed.

Lemma format_x_variant_digit (variant : Z) :
  8 <= variant <= 11 ->
  exists c, format_x variant = String c ""
            /\ In c ["8"; "9"; "a"; "b"]%char
            /\ is_hex_char c = true.
Proof.
  intros H.
  assert (Hcases : variant = 8 \/ variant = 9 \/ variant = 10 \/ variant = 11)
    by lia.
  destruct Hcases as [-> | [-> | [-> | ->]]];
    eexists; (split; [reflexivity|]); split; simpl; auto.
Qed.

(** C3, as the code has it. When [randhex(30)] gives 30 lowercase
    hexadecimal digits and [randbetween(8, 11)] an integer of [8..11],
    [generate_uuid4] returns and stores five parts that are 32 hexadecimal
    digits together; the third starts with [4] and the fourth with one of
    [8], [9], [a], [b]. *)
Theorem generate_uuid4_shape (self : Passphrase) (w w1 w2 : W)
        (hexstr : string) (variant : Z) :
  randhex 30 w = (Ok hexstr, w1) ->
  String.length hexstr = 30%nat ->
  is_hex hexstr = true ->
  randbetween 8 11 w1 = (Ok variant, w2) ->
  8 <= variant <= 11 ->
  exists p1 p2 p3 p4 p5 c,
    let uuid4 := [IStr p1; IStr p2; IStr ("4" ++ p3); IStr (String c p4);
                  IStr p5] in
    generate_uuid4 self w = (Ok uuid4, set_last_result (Some uuid4) self, w2)
    /\ String.length (concat_items uuid4) = 32%nat
    /\ is_hex (concat_items uuid4) = true
    /\ In c ["8"; "9"; "a"; "b"]%char.
Proof.
  intros Hhex Hlen Hdigits Hvar Hrange.
  destruct (format_x_variant_digit variant Hrange) as (c & Hc & Hin & Hch).
  exists (slice 0 8 hexstr), (slice 8 12 hexstr), (slice 12 15 hexstr),
    (slice 15 18 hexstr), (slice_from 18 hexstr), c.
  cbv zeta. split; [|split; [|split]].
  - rewrite (generate_uuid4_run self w w1 w2 hexstr variant Hhex Hvar).
    rewrite Hc. reflexivity.
  - unfold concat_items, join_empty, slice, slice_from. simpl.
    repeat first [ rewrite length_append | rewrite length_substring
                 | progress simpl String.length ].
    rewrite Hlen. reflexivity.
  - unfold is_hex, concat_items, join_empty, slice, slice_from. simpl.
    repeat first [ rewrite forall_string_append
                 | rewrite (forall_string_substring is_hex_char hexstr)
                     by exact Hdigits
                 | rewrite Hch
                 | progress simpl forall_string
                 | progress simpl andb ].
    reflexivity.
  - exact Hin.
Qed.

End Uuid4.

Lemma generate_uuid4_shape_witness :
  exists p1 p2 p3 p4 p5 c,
    let uuid4 := [IStr p1; IStr p2; IStr ("4" ++ p3); IStr (String c p4);
                  IStr p5] in
    generate_uuid4 (secrets := digit_secrets) example_object (counting_tape 0)
    = (Ok uuid4, set_last_result (Some uuid4) example_object,
       mkTape (samples (counting_tape 0)) 31)
    /\ String.length (concat_items uuid4) = 32%nat
    /\ is_hex (concat_items uuid4) = true
    /\ In c ["8"; "9"; "a"; "b"]%char.
Proof.
  apply (generate_uuid4_shape (secrets := digit_secrets) example_object
           (counting_tape 0) (mkTape (samples (counting_tape 0)) 30)
           (mkTape (samples (counting_tape 0)) 31)
           "0123456789abcdef0123456789abcd" 10).
  - vm_compute. reflexivity.
  - vm_compute. reflexivity.
  - vm_compute. reflexivity.
  - vm_compute. reflexivity.
  - split; discriminate.
Defined.

Example uuid4_of_counting_tape :
  generate_uuid4 (secrets := digit_secrets) example_object (counting_tape 0)
  = (Ok [IStr "01234567"; IStr "89ab"; IStr "4cde"; IStr "af01";
         IStr "23456789abcd"],
     set_last_result
       (Some [IStr "01234567"; IStr "89ab"; IStr "4cde"; IStr "af01";
              IStr "23456789abcd"]) example_object,
     mkTape (samples (counting_tape 0)) 31).
Proof. vm_compute. reflexivity. Qed.

(** C3 as the spec states it fails: when [randhex(30)] is the hex encoding
    of 30 bytes, 60 digits, the last part takes all that is left of them and
    the five parts are 62 characters together. *)
Lemma uuid4_of_30_bytes_counterexample :
  let hexstr :=
    "0123456789abcdef0123456789abcdef0123456789abcdef0123456789ab" in
  let uuid4 :=
    [IStr "01234567"; IStr "89ab"; IStr "4cde"; IStr "8f01";
     IStr "23456789abcdef0123456789abcdef0123456789ab"] in
  randhex (Secrets := spec_secrets) 30 (counting_tape 0)
  = (Ok hexstr, mkTape (samples (counting_tape 0)) 60)
  /\ String.length hexstr = 60%nat
  /\ is_hex hexstr = true
  /\ generate_uuid4 (secrets := spec_secrets) example_object (counting_tape 0)
     = (Ok uuid4, set_last_result (Some uuid4) example_object,
        mkTape (samples (counting_tape 0)) 61)
  /\ List.length uuid4 = 5%nat
  /\ String.length (concat_items uuid4) = 62%nat.
Proof.
  cbv zeta.
  split; [vm_compute; reflexivity|].
  split; [vm_compute; reflexivity|].
  split; [vm_compute; reflexivity|].
  split; [vm_compute; reflexivity|].
  split; vm_compute; reflexivity.
Qed.

(** ** The setters *)

Section Setters.

Context {W : Type}.

Lemma int_setter_cases (v : pyval) (self : Passphrase) (w : W)
      (wrong_type negative : string)
      (store : Z -> Passphrase -> Passphrase) :
  let set : M W unit :=
    match as_int v with
    | None => raise TypeError wrong_type
    | Some z =>
        bind (raise_if (z <? 0) ValueError negative)
             (fun _ => assign (store z))
    end in
  match as_int v with
  | None => exists e, set self w = (Err e, self, w) /\ InvalidInput e = true
  | Some z =>
      if 0 <=? z then set self w = (Ok tt, store z self, w)
      else exists e, set self w = (Err e, self, w) /\ InvalidInput e = true
  end.
Proof.
  cbv zeta.
  destruct (as_int v) as [z|].
  - unfold bind, raise_if, raise, ret, assign.
    destruct (Z.leb_spec 0 z) as [Hz|Hz];
      destruct (Z.ltb_spec z 0) as [Hz'|Hz']; try lia.
    + reflexivity.
    + eexists. split; reflexivity.
  - eexists. split; reflexivity.
Qed.

(** The two goals an [int] attribute leaves, from its three cases. *)
Ltac int_setter cases :=
  let C := fresh "C" in
  pose proof cases as C; cbv zeta in C;
  unfold randnum_min_setter, randnum_max_setter, amount_w_setter,
    amount_n_setter, passwordlen_setter;
  let z := fresh "z" in
  destruct (as_int _) as [z|]; [destruct (0 <=? z)|];
  intros; try discriminate;
  first [ now split | left; eexists; exact C ].

(** C4, as the code has it. A value of the wrong type or out of range is
    refused by the setters of the six numeric attributes, of the separator
    and of the word list, with a [TypeError] or a [ValueError] and the object
    as it was; a value they accept is stored, except that an [int] too large
    for a [float] is refused by [entropy_bits_req], with the object as it
    was. The setters of the four flags refuse nothing: they store the truth
    value of whatever is assigned. *)
Theorem setters_validate (f : field) (v : pyval) (self : Passphrase) (w : W) :
  (acceptable f v = false ->
   is_flag f = false
   /\ exists e, setter f v self w = (Err e, self, w) /\ InvalidInput e = true)
  /\ (acceptable f v = true ->
      (exists self', setter f v self w = (Ok tt, self', w))
      \/ (f = F_entropy_bits_req
          /\ exists e, setter f v self w = (Err e, self, w)
                       /\ exn_class e = OverflowError))
  /\ (is_flag f = true ->
      exists self',
        setter f v self w = (Ok tt, self', w) /\ flag_of f self' = truth v).
Proof.
  destruct f; simpl setter; simpl acceptable; simpl is_flag;
    (split; [|split]); try discriminate;
    try (intros _; eexists; split; reflexivity);
    try (intros _; left; eexists; reflexivity).
  - (* entropy_bits_req, refused *)
    unfold entropy_bits_req_setter. intros H. split; [reflexivity|].
    destruct (as_number v) as [x|].
    + apply negb_false_iff in H.
      unfold bind, raise_if. rewrite H.
      eexists. split; reflexivity.
    + eexists. split; reflexivity.
  - (* entropy_bits_req, accepted *)
    unfold entropy_bits_req_setter. intros H.
    destruct (as_number v) as [x|]; [|discriminate].
    apply negb_true_iff in H.
    unfold bind, raise_if, call. rewrite H. unfold ret.
    destruct (float_of_number x) as [fl|e] eqn:Hfl.
    + left. eexists. reflexivity.
    + right. split; [reflexivity|]. exists e. split; [reflexivity|].
      destruct x as [z|fl]; simpl in Hfl; [|discriminate].
      unfold float_of_int in Hfl.
      destruct (binary_normalize prec emax z 0 false); inversion Hfl;
        reflexivity.
  - int_setter (int_setter_cases v self w
                  "randnum_min can only be int"
                  "randnum_min should be greater than 0"
                  set_randnum_min).
  - int_setter (int_setter_cases v self w
                  "randnum_min can only be int"
                  "randnum_min should be greater than 0"
                  set_randnum_min).
  - int_setter (int_setter_cases v self w
                  "randnum_max can only be int"
                  "randnum_max should be greater than 0"
                  set_randnum_max).
  - int_setter (int_setter_cases v self w
                  "randnum_max can only be int"
                  "randnum_max should be greater than 0"
                  set_randnum_max).
  - int_setter (int_setter_cases v self w
                  "amount_w can only be int"
                  "amount_w should be greater than 0"
                  (fun z => set_amount_w (Some z))).
  - int_setter (int_setter_cases v self w
                  "amount_w can only be int"
                  "amount_w should be greater than 0"
                  (fun z => set_amount_w (Some z))).
  - int_setter (int_setter_cases v self w
                  "amount_n can only be int"
                  "amount_n should be greater than 0"
                  (fun z => set_amount_n (Some z))).
  - int_setter (int_setter_cases v self w
                  "amount_n can only be int"
                  "amount_n should be greater than 0"
                  (fun z => set_amount_n (Some z))).
  - int_setter (int_setter_cases v self w
                  "passwordlen can only be int"
                  "passwordlen should be greater than 0"
                  (fun z => set_passwordlen (Some z))).
  - int_setter (int_setter_cases v self w
                  "passwordlen can only be int"
                  "passwordlen should be greater than 0"
                  (fun z => set_passwordlen (Some z))).
  - destruct v; intros; try discriminate;
      (split; [reflexivity | eexists; split; reflexivity]).
  - destruct v; intros; try discriminate. left. eexists. reflexivity.
  - destruct v; intros; try discriminate;
      (split; [reflexivity | eexists; split; reflexivity]).
  - destruct v; intros; try discriminate; left; eexists; reflexivity.
Qed.

End Setters.

Lemma setters_validate_witness :
  (exists e,
     setter F_amount_w (PyInt (-3)) example_object tt
     = (Err e, example_object, tt)
     /\ InvalidInput e = true)
  /\ ((exists self',
         setter F_entropy_bits_req (PyInt 77) example_object tt
         = (Ok tt, self', tt))
      \/ (F_entropy_bits_req = F_entropy_bits_req
          /\ exists e,
              setter F_entropy_bits_req (PyInt 77) example_object tt
              = (Err e, example_object, tt)
              /\ exn_class e = OverflowError))
  /\ (exists self',
        setter F_password_use_digits (PyStr "") example_object tt
        = (Ok tt, self', tt)
        /\ flag_of F_password_use_digits self' = truth (PyStr "")).
Proof.
  split; [|split].
  - destruct (setters_validate F_amount_w (PyInt (-3)) example_object tt)
      as [H _].
    exact (proj2 (H eq_refl)).
  - destruct (setters_validate F_entropy_bits_req (PyInt 77) example_object tt)
      as (_ & H & _).
    exact (H eq_refl).
  - destruct (setters_validate F_password_use_digits (PyStr "")
                example_object tt) as (_ & _ & H).
    exact (H eq_refl).
Defined.

Example entropy_bits_req_stores_float :
  setter F_entropy_bits_req (PyInt 77) example_object tt
  = (Ok tt,
     set_entropy_bits_req (Some (S754_finite false 5418393301680128 (-46)))
       example_object,
     tt).
Proof. vm_compute. reflexivity. Qed.

Example entropy_bits_req_refuses_huge_int :
  setter F_entropy_bits_req (PyInt (2 ^ 1024)) example_object tt
  = (Err (Raise OverflowError "int too large to convert to float"),
     example_object, tt).
Proof. vm_compute. reflexivity. Qed.

(** C4 as the spec states it fails: a list assigned to the flag
    [password_use_digits] is not refused; the flag becomes [False]. *)
Lemma flag_setter_accepts_list_counterexample :
  setter F_password_use_digits (PyList []) example_object tt
  = (Ok tt, set_password_use_digits false example_object, tt)
  /\ _password_use_digits example_object = true.
Proof. split; reflexivity. Qed.

(** ** The bounds of the random numbers *)

Section Bounds.

Context {W : Type}.

Lemma int_setter_accepts (v : pyval) (self self' : Passphrase) (w w' : W)
      (wrong_type negative : string)
      (store : Z -> Passphrase -> Passphrase) :
  match as_int v with
  | None => raise TypeError wrong_type
  | Some z =>
      bind (raise_if (z <? 0) ValueError negative) (fun _ => assign (store z))
  end self w = (Ok tt, self', w') ->
  exists z, as_int v = Some z /\ 0 <= z /\ self' = store z self /\ w' = w.
Proof.
  pose proof (int_setter_cases v self w wrong_type negative store) as C.
  cbv zeta in C.
  destruct (as_int v) as [z|].
  - destruct (Z.leb_spec 0 z) as [Hz|Hz].
    + rewrite C. intros E. inversion E. exists z. auto.
    + destruct C as (e & -> & _). discriminate.
  - destruct C as (e & -> & _). discriminate.
Qed.

(** An accepted assignment changes no bound but its own, and that one to a
    number that is not negative. *)
Lemma setter_keeps_bounds (f : field) (v : pyval) (self self' : Passphrase)
      (w w' : W) :
  setter f v self w = (Ok tt, self', w') ->
  (_randnum_min self' = _randnum_min self
   \/ f = F_randnum_min /\ 0 <= _randnum_min self')
  /\ (_randnum_max self' = _randnum_max self
      \/ f = F_randnum_max /\ 0 <= _randnum_max self').
Proof.
  destruct f; simpl setter; intros E;
    unfold randnum_min_setter, randnum_max_setter, amount_w_setter,
      amount_n_setter, passwordlen_setter in E;
    try (apply int_setter_accepts in E as (z & _ & Hz & -> & _);
         simpl; now auto);
    try (inversion E; subst; simpl; now auto).
  - (* entropy_bits_req *)
    unfold entropy_bits_req_setter in E.
    destruct (as_number v) as [x|]; [|discriminate].
    unfold bind, raise_if, call, assign in E.
    destruct (number_negative x); [discriminate|]. unfold ret in E.
    destruct (float_of_number x); inversion E; subst; simpl; auto.
  - (* separator *)
    destruct v; inversion E; subst; simpl; auto.
  - (* wordlist *)
    destruct v; inversion E; subst; simpl; auto.
Qed.

(** C7, as the code has it. Each bound is validated on its own: an accepted
    assignment to [randnum_min] stores an integer that is not negative and
    leaves [randnum_max] as it was, and the other way round; and when the
    constants [MIN_NUM] and [MAX_NUM] are not negative, both bounds are not
    negative in every state that assignments through the setters reach from
    a new object. Nothing compares the two bounds. *)
Theorem randnum_bounds_validated_apart {settings : Settings} :
  (forall v self self' (w w' : W),
      randnum_min_setter v self w = (Ok tt, self', w') ->
      as_int v = Some (_randnum_min self')
      /\ 0 <= _randnum_min self'
      /\ _randnum_max self' = _randnum_max self)
  /\ (forall v self self' (w w' : W),
         randnum_max_setter v self w = (Ok tt, self', w') ->
         as_int v = Some (_randnum_max self')
         /\ 0 <= _randnum_max self'
         /\ _randnum_min self' = _randnum_min self)
  /\ (0 <= MIN_NUM -> 0 <= MAX_NUM ->
      forall l self' (w w' : W),
        assign_all l initial w = (Ok tt, self', w') ->
        0 <= _randnum_min self' /\ 0 <= _randnum_max self').
Proof.
  split; [|split].
  - intros v self self' w w' E. unfold randnum_min_setter in E.
    apply int_setter_accepts in E as (z & Hv & Hz & -> & _). simpl. auto.
  - intros v self self' w w' E. unfold randnum_max_setter in E.
    apply int_setter_accepts in E as (z & Hv & Hz & -> & _). simpl. auto.
  - intros Hmin Hmax l.
    assert (Hgen : forall self self' (w w' : W),
               0 <= _randnum_min self -> 0 <= _randnum_max self ->
               assign_all l self w = (Ok tt, self', w') ->
               0 <= _randnum_min self' /\ 0 <= _randnum_max self').
    { induction l as [|[f v] l IH]; intros self self' w w' H1 H2 E.
      - inversion E; subst. auto.
      - simpl in E. unfold bind in E.
        destruct (setter f v self w) as [[[[]|e] self1] w1] eqn:Es;
          [|discriminate].
        destruct (setter_keeps_bounds f v self self1 w w1 Es) as [Ha Hb].
        apply (IH self1 self' w1 w'); [| |exact E].
        + destruct Ha as [-> | [_ Ha]]; assumption.
        + destruct Hb as [-> | [_ Hb]]; assumption. }
    intros self' w w'. apply Hgen; assumption.
Qed.

End Bounds.

Lemma randnum_bounds_validated_apart_witness :
  let s1 := set_randnum_max 5 example_object in
  let s2 := set_randnum_min 10 s1 in
  (as_int (PyInt 10) = Some (_randnum_min s2)
   /\ 0 <= _randnum_min s2
   /\ _randnum_max s2 = _randnum_max s1)
  /\ (0 <= _randnum_min s2 /\ 0 <= _randnum_max s2).
Proof.
  intros s1 s2.
  destruct (@randnum_bounds_validated_apart unit example_settings)
    as (Hmin & Hmax & Hreach).
  split.
  - exact (Hmin (PyInt 10) s1 s2 tt tt eq_refl).
  - exact (Hreach ltac:(discriminate) ltac:(discriminate)
             [(F_randnum_max, PyInt 5); (F_randnum_min, PyInt 10)]
             s2 tt tt eq_refl).
Defined.

(** C7 as the spec states it fails: on a new object the assignments
    [randnum_max = 5] and [randnum_min = 10] are both accepted, and leave
    the lower bound above the upper one. *)
Lemma randnum_min_above_max_counterexample :
  exists self',
    assign_all [(F_randnum_max, PyInt 5); (F_randnum_min, PyInt 10)]
      example_object tt
    = (Ok tt, self', tt)
    /\ _randnum_min self' = 10
    /\ _randnum_max self' = 5
    /\ _randnum_min self' > _randnum_max self'.
Proof.
  exists (set_randnum_min 10 (set_randnum_max 5 example_object)).
  repeat split.
Qed.

(** ** The cached entropy of the word list *)

Section WordlistCache.

Context {W : Type} {builtin : Wordlist} {files : TextFiles}.

Lemma import_words_from_file_accepts (inputfile : string) (is_diceware : bool)
      (self self' : Passphrase) (w w' : W) :
  import_words_from_file inputfile is_diceware self w = (Ok tt, self', w') ->
  exists words,
    self' = set_wordlist (Some words) (set_wordlist_entropy_bits None self)
    /\ w' = w.
Proof.
  unfold import_words_from_file, bind, call, raise_if, assign, raise, ret.
  destruct (isfile_notempty inputfile) as [[|]|e]; simpl; try discriminate.
  destruct is_diceware.
  - destruct (_read_words_from_diceware inputfile) as [words|e];
      intros E; inversion E. now exists words.
  - destruct (_read_words_from_wordfile inputfile) as [words|e];
      intros E; inversion E. now exists words.
Qed.

(** C8. An accepted assignment through the [wordlist] setter and a completed
    [import_words_from_file] leave the cached entropy per word unset, so that
    the entropy per word the queries use is computed from the word list;
    [load_internal_wordlist] leaves the built-in list as the word list and
    its constant as the cached value. *)
Theorem wordlist_cache_invalidated :
  (forall words self self' (w w' : W),
      wordlist_setter words self w = (Ok tt, self', w') ->
      _wordlist_entropy_bits self' = None
      /\ (words = PyList (wordlist_seq self')
          \/ words = PyTuple (wordlist_seq self'))
      /\ forall calc : Calc,
          wordlist_entropy self' = entropy_bits (PyList (wordlist_seq self')))
  /\ (forall inputfile is_diceware self self' (w w' : W),
         import_words_from_file inputfile is_diceware self w
         = (Ok tt, self', w') ->
         _wordlist_entropy_bits self' = None
         /\ forall calc : Calc,
             wordlist_entropy self'
             = entropy_bits (PyList (wordlist_seq self')))
  /\ (forall self (w : W),
         exists self',
           load_internal_wordlist self w = (Ok tt, self', w)
           /\ _wordlist self' = Some EFF_LONG_WORDLIST
           /\ _wordlist_entropy_bits self' = Some EFF_LONG_WORDLIST_ENTROPY).
Proof.
  split; [|split].
  - intros words self self' w w' E.
    destruct words; try discriminate; inversion E; subst;
      (split; [reflexivity|]); (split; [now auto|]); reflexivity.
  - intros inputfile is_diceware self self' w w' E.
    apply import_words_from_file_accepts in E as (words & -> & _).
    split; reflexivity.
  - intros self w. eexists. split; [reflexivity|]. split; reflexivity.
Qed.

End WordlistCache.

Lemma wordlist_cache_invalidated_witness :
  (_wordlist_entropy_bits
     (set_wordlist_entropy_bits None
        (set_wordlist (Some [PyStr "abacus"; PyStr "able"]) example_loaded))
   = None)
  /\ (_wordlist_entropy_bits
        (set_wordlist (Some [PyStr "abacus"; PyStr "abdomen"])
           (set_wordlist_entropy_bits None example_loaded))
      = None).
Proof.
  destruct (@wordlist_cache_invalidated unit example_wordlist
              (fs_files example_fs)) as (Hset & Himport & _).
  split.
  - exact (proj1 (Hset (PyList [PyStr "abacus"; PyStr "able"]) example_loaded
                    _ tt tt eq_refl)).
  - exact (proj1 (Himport "dice.txt" true example_loaded
                    (set_wordlist (Some [PyStr "abacus"; PyStr "abdomen"])
                       (set_wordlist_entropy_bits None example_loaded))
                    tt tt eq_refl)).
Defined.

Example import_word_file :
  import_words_from_file (files := fs_files example_fs) "words.txt" false
    example_loaded tt
  = (Ok tt,
     set_wordlist (Some [PyStr "Abacus"; PyStr "abdomen"])
       (set_wordlist_entropy_bits None example_loaded),
     tt).
Proof. vm_compute. reflexivity. Qed.

Example import_missing_or_empty_file :
  (exists e,
     import_words_from_file (files := fs_files example_fs) "nowhere.txt" false
       example_loaded tt
     = (Err e, example_loaded, tt) /\ exn_class e = FileNotFoundError)
  /\ (exists e,
        import_words_from_file (files := fs_files example_fs) "empty.txt"
          false example_loaded tt
        = (Err e, example_loaded, tt) /\ exn_class e = FileNotFoundError).
Proof. split; eexists; split; vm_compute; reflexivity. Qed.

(** ** A new object *)

Section NewObject.

Context {W : Type}.
Context {settings : Settings} {builtin : Wordlist}.
Context {secrets : Secrets W} {files : TextFiles}.

Local Open Scope method_scope.

(** Whatever the object holds when [__init__] starts, the fourteen
    assignments have made it [initial] when [inputfile] is looked at. *)
Lemma init_assigns_defaults (inputfile : option string) (is_diceware : bool)
      (self0 : Passphrase) (w : W) :
  __init__ inputfile is_diceware self0 w
  = match inputfile with
    | Some f =>
        if String.eqb f "internal" then load_internal_wordlist
        else import_words_from_file f is_diceware
    | None => ret tt
    end initial w.
Proof. reflexivity. Qed.

(** C10. Without an input file [__init__] assigns every attribute, whatever
    the object held, and stops there: [Passphrase()] is an object with the
    four character classes enabled, a single space as separator, [MIN_NUM]
    and [MAX_NUM] as bounds and nothing else set; its character set is the
    94 characters of the four classes, and once a password length [n] is
    assigned [generate_password] draws every one of its [n] characters from
    these 94. *)
Theorem new_object_defaults (w : W) (n : nat) :
  (forall (is_diceware : bool) (self0 : Passphrase),
      __init__ None is_diceware self0 w = (Ok tt, initial, w))
  /\ Passphrase_new None false w = (Ok initial, w)
  /\ (_password_use_lowercase initial = true
      /\ _password_use_uppercase initial = true
      /\ _password_use_digits initial = true
      /\ _password_use_punctuation initial = true)
  /\ _separator initial = " "
  /\ (_randnum_min initial = MIN_NUM /\ _randnum_max initial = MAX_NUM)
  /\ (_passwordlen initial = None
      /\ _amount_w initial = None
      /\ _amount_n initial = None
      /\ _entropy_bits_req initial = None
      /\ _wordlist initial = None
      /\ _wordlist_entropy_bits initial = None
      /\ last_result initial = None)
  /\ (_get_password_characters initial = all_characters
      /\ String.length all_characters = 94%nat)
  /\ (let configured := set_passwordlen (Some (Z.of_nat n)) initial in
      passwordlen_setter (PyInt (Z.of_nat n)) initial w
      = (Ok tt, configured, w)
      /\ generate_password configured w
         = (password <-
              append_each n
                (c <- draw (randchoice (list_ascii_of_string all_characters)) ;;
                 ret (IStr (String c "")))
                [] ;;
            assign (set_last_result (Some password)) ;;;
            ret password) configured w).
Proof.
  repeat split.
  - unfold passwordlen_setter.
    change (as_int (PyInt (Z.of_nat n))) with (Some (Z.of_nat n)).
    cbv iota. unfold bind, raise_if.
    destruct (Z.ltb_spec (Z.of_nat n) 0) as [Hneg|_]; [lia | reflexivity].
  - unfold generate_password. unfold bind at 1 2. unfold get.
    change (_passwordlen (set_passwordlen (Some (Z.of_nat n)) initial))
      with (Some (Z.of_nat n)).
    change (_get_password_characters
              (set_passwordlen (Some (Z.of_nat n)) initial))
      with all_characters.
    cbv iota. rewrite Nat2Z.id. reflexivity.
Qed.

End NewObject.

Example generate_password_from_tape :
  generate_password (secrets := tape_secrets 1)
    (set_passwordlen (Some 6) example_object) (counting_tape 24)
  = (Ok [IStr "y"; IStr "z"; IStr "A"; IStr "B"; IStr "C"; IStr "D"],
     set_last_result
       (Some [IStr "y"; IStr "z"; IStr "A"; IStr "B"; IStr "C"; IStr "D"])
       (set_passwordlen (Some 6) example_object),
     mkTape (samples (counting_tape 24)) 6).
Proof. vm_compute. reflexivity. Qed.

(** ** Failed operations *)

Section Frames.

Context {W : Type}.

Lemma readonly_atomic {A} (m : M W A) : readonly m -> atomic m.
Proof.
  intros H self w e self' w' E.
  specialize (H self w). now rewrite E in H.
Qed.

Lemma readonly_ret {A} (a : A) : readonly (@ret W A a).
Proof. now intros self w. Qed.

Lemma readonly_raise {A} (k : exn_kind) (msg : string) :
  readonly (@raise W A k msg).
Proof. now intros self w. Qed.

Lemma readonly_get {A} (f : Passphrase -> A) : readonly (@get W A f).
Proof. now intros self w. Qed.

Lemma readonly_call {A} (r : result A) : readonly (@call W A r).
Proof. now intros self w. Qed.

Lemma readonly_draw {A} (f : W -> result A * W) : readonly (draw f).
Proof. intros self w. unfold draw. now destruct (f w). Qed.

Lemma readonly_raise_if (c : bool) (k : exn_kind) (msg : string) :
  readonly (@raise_if W c k msg).
Proof. intros self w. now destruct c. Qed.

Lemma readonly_bind {A B} (m : M W A) (k : A -> M W B) :
  readonly m -> (forall a, readonly (k a)) -> readonly (bind m k).
Proof.
  intros Hm Hk self w. unfold bind.
  specialize (Hm self w).
  destruct (m self w) as [[[a|e] self1] w1]; simpl in Hm; subst self1.
  - apply Hk.
  - reflexivity.
Qed.

Lemma readonly_append_each {A} (body : M W A) (n : nat) (acc : list A) :
  readonly body -> readonly (append_each n body acc).
Proof.
  intros Hbody. revert acc.
  induction n as [|n IH]; intros acc; simpl.
  - apply readonly_ret.
  - apply readonly_bind; [exact Hbody | intros a; apply IH].
Qed.

Lemma atomic_bind {A B} (m : M W A) (k : A -> M W B) :
  readonly m -> (forall a, atomic (k a)) -> atomic (bind m k).
Proof.
  intros Hm Hk self w e self' w'. unfold bind.
  specialize (Hm self w).
  destruct (m self w) as [[[a|e1] self1] w1]; simpl in Hm; subst self1.
  - apply Hk.
  - intros E. now inversion E.
Qed.

Lemma atomic_assign (f : Passphrase -> Passphrase) : atomic (@assign W f).
Proof. intros self w e self' w' E. discriminate. Qed.

Lemma atomic_assign_ret {A} (f : Passphrase -> Passphrase) (a : A) :
  atomic (bind (@assign W f) (fun _ => ret a)).
Proof. intros self w e self' w' E. discriminate. Qed.

Lemma atomic_assign_assign (f g : Passphrase -> Passphrase) :
  atomic (bind (@assign W f) (fun _ => assign g)).
Proof. intros self w e self' w' E. discriminate. Qed.

Lemma atomic_discard {A} (m : M W A) : atomic m -> atomic (discard m).
Proof.
  intros Hm self w e self' w'. unfold discard, bind, ret.
  destruct (m self w) as [[[a|e1] self1] w1] eqn:E1.
  - intros E. discriminate.
  - intros E. inversion E; subst. exact (Hm self w e self' w' E1).
Qed.

End Frames.

(** Reading, calling out and drawing leave the object alone. *)
Ltac readonly_steps :=
  repeat first
    [ apply readonly_ret | apply readonly_raise | apply readonly_get
    | apply readonly_call | apply readonly_draw | apply readonly_raise_if
    | apply readonly_append_each
    | apply readonly_bind; [|intros ?]
    | match goal with
      | |- readonly (match ?x with _ => _ end) => destruct x
      end ].

(** Up to its assignments a method only reads, calls out and draws. *)
Ltac atomic_steps :=
  repeat first
    [ apply atomic_assign_ret | apply atomic_assign_assign
    | apply atomic_assign
    | apply atomic_discard
    | apply atomic_bind; [solve [readonly_steps] | intros ?]
    | match goal with
      | |- atomic (match ?x with _ => _ end) => destruct x
      end
    | apply readonly_atomic; solve [readonly_steps] ].

Section FailedOperations.

Context {W : Type}.
Context {builtin : Wordlist} {secrets : Secrets W}.
Context {aux : Aux} {files : TextFiles}.

Lemma setter_atomic (f : field) (v : pyval) : atomic (@setter W f v).
Proof.
  destruct f; simpl;
    unfold entropy_bits_req_setter, randnum_min_setter, randnum_max_setter,
      amount_w_setter, amount_n_setter, passwordlen_setter, separator_setter,
      wordlist_setter, password_use_lowercase_setter,
      password_use_uppercase_setter, password_use_digits_setter,
      password_use_punctuation_setter;
    atomic_steps.
Qed.

Lemma generate_atomic (uppercase : pyval) : atomic (generate uppercase).
Proof. unfold generate. atomic_steps. Qed.

Lemma generate_password_atomic : atomic generate_password.
Proof. unfold generate_password. atomic_steps. Qed.

Lemma generate_uuid4_atomic : atomic generate_uuid4.
Proof. unfold generate_uuid4. atomic_steps. Qed.

Lemma load_internal_wordlist_atomic :
  atomic (load_internal_wordlist (W := W)).
Proof. unfold load_internal_wordlist. atomic_steps. Qed.

(** The three ways an import fails. The check of the file raises, or
    answers no: the object is as it was. The check answers yes and the
    reader raises: the cache is already reset, nothing else has changed. *)
Lemma import_words_from_file_fails (inputfile : string) (is_diceware : bool)
      (self self' : Passphrase) (w w' : W) (e : exn) :
  import_words_from_file inputfile is_diceware self w = (Err e, self', w') ->
  (isfile_notempty inputfile = Err e /\ self' = self)
  \/ (isfile_notempty inputfile = Ok false
      /\ exn_class e = FileNotFoundError
      /\ self' = self)
  \/ (isfile_notempty inputfile = Ok true
      /\ reader is_diceware inputfile = Err e
      /\ self' = set_wordlist_entropy_bits None self).
Proof.
  unfold import_words_from_file, reader, bind, call, raise_if, assign, raise,
    ret.
  destruct (isfile_notempty inputfile) as [[|]|e0]; simpl.
  - destruct is_diceware.
    + destruct (_read_words_from_diceware inputfile) as [words|e1];
        intros E; inversion E. right; right. now subst.
    + destruct (_read_words_from_wordfile inputfile) as [words|e1];
        intros E; inversion E. right; right. now subst.
  - intros E; inversion E. right; left. now subst.
  - intros E; inversion E. left. now subst.
Qed.

Lemma ask_readonly {calc : Calc} (q : query) : readonly (@ask W calc q).
Proof.
  destruct q; simpl;
    unfold discard, password_length_needed, words_amount_needed,
      generated_password_entropy, generated_passphrase_entropy;
    readonly_steps.
Qed.

(** C6, as the code has it. A setter, [load_internal_wordlist] or a
    generation operation that fails leaves every attribute and
    [last_result] as they were, and so does an entropy query, failed or not.
    A failed [import_words_from_file] leaves them as they were too when it
    fails at the check of the file, which raises or answers no (then the
    exception is a [FileNotFoundError]); when the check has answered yes and
    the failure is the reader's, the cached entropy per word is already
    reset and every other attribute is as it was. An operation ends with a
    value or with an exception, never with both. *)
Theorem failed_operation_leaves_object :
  (forall op self self' (w w' : W) e,
      perform op self w = (Err e, self', w') ->
      match op with
      | ImportWordsFromFile inputfile is_diceware =>
          (isfile_notempty inputfile = Err e /\ self' = self)
          \/ (isfile_notempty inputfile = Ok false
              /\ exn_class e = FileNotFoundError
              /\ self' = self)
          \/ (isfile_notempty inputfile = Ok true
              /\ reader is_diceware inputfile = Err e
              /\ self' = set_wordlist_entropy_bits None self)
      | _ => self' = self
      end)
  /\ (forall (calc : Calc) q self (w : W), snd (fst (ask q self w)) = self).
Proof.
  split.
  - intros op self self' w w' e E.
    destruct op; simpl in E.
    + exact (setter_atomic f v self w e self' w' E).
    + exact (load_internal_wordlist_atomic self w e self' w' E).
    + exact (import_words_from_file_fails _ _ _ _ _ _ _ E).
    + exact (atomic_discard _ (generate_atomic uppercase) self w e self' w' E).
    + exact (atomic_discard _ generate_password_atomic self w e self' w' E).
    + exact (atomic_discard _ generate_uuid4_atomic self w e self' w' E).
  - intros calc q self w. apply ask_readonly.
Qed.

End FailedOperations.

Lemma failed_operation_leaves_object_witness :
  (let out :=
     perform (builtin := example_wordlist) (secrets := tape_secrets 1)
       (aux := char_aux) (files := fs_files example_fs)
       (ImportWordsFromFile "broken.txt" true) example_loaded
       (counting_tape 0) in
   let e := Raise IndexError "list index out of range" in
   (spec_isfile_notempty example_fs "broken.txt" = Err e
    /\ snd (fst out) = example_loaded)
   \/ (spec_isfile_notempty example_fs "broken.txt" = Ok false
       /\ exn_class e = FileNotFoundError
       /\ snd (fst out) = example_loaded)
   \/ (spec_isfile_notempty example_fs "broken.txt" = Ok true
       /\ reader (files := fs_files example_fs) true "broken.txt" = Err e
       /\ snd (fst out) = set_wordlist_entropy_bits None example_loaded))
  /\ (let out :=
        perform (builtin := example_wordlist) (secrets := tape_secrets 1)
          (aux := char_aux) (files := fs_files example_fs)
          (Generate (PyStr "2")) (set_amount_w (Some 2)
                                    (set_amount_n (Some 1) example_loaded))
          (counting_tape 0) in
      snd (fst out)
      = set_amount_w (Some 2) (set_amount_n (Some 1) example_loaded)).
Proof.
  destruct (@failed_operation_leaves_object Tape example_wordlist
              (tape_secrets 1) char_aux (fs_files example_fs)) as [H _].
  split.
  - exact (H (ImportWordsFromFile "broken.txt" true) example_loaded _
             (counting_tape 0) (counting_tape 0)
             (Raise IndexError "list index out of range") eq_refl).
  - exact (H (Generate (PyStr "2"))
             (set_amount_w (Some 2) (set_amount_n (Some 1) example_loaded))
             (set_amount_w (Some 2) (set_amount_n (Some 1) example_loaded))
             (counting_tape 0) (counting_tape 0)
             (Raise TypeError "uppercase must be an integer number") eq_refl).
Defined.

(** C6 as the spec states it fails: importing a diceware file whose second
    line has one column fails with the cached entropy per word already
    reset, while the word list is still the one the cache belonged to. *)
Lemma failed_import_resets_cache_counterexample :
  import_words_from_file (files := fs_files example_fs) "broken.txt" true
    example_loaded tt
  = (Err (Raise IndexError "list index out of range"),
     set_wordlist_entropy_bits None example_loaded, tt)
  /\ _wordlist_entropy_bits example_loaded
     = Some (S754_finite false 6755399441055744 (-51))
  /\ _wordlist_entropy_bits (set_wordlist_entropy_bits None example_loaded)
     = None.
Proof. repeat split. Qed.

(** ** Runs of [generate] *)

Example generate_from_tape :
  generate (secrets := tape_secrets 1) (aux := char_aux) (PyInt (-1))
    example_ready (counting_tape 5)
  = (Ok [IStr "ABILITY"; IStr "ABLAZE"; IStr "ABLe"; IInt 100008],
     set_last_result
       (Some [IStr "ABILITY"; IStr "ABLAZE"; IStr "ABLe"; IInt 100008])
       example_ready,
     mkTape (samples (counting_tape 5)) 4).
Proof. vm_compute. reflexivity. Qed.

Example generate_refuses_number_in_wordlist :
  generate (secrets := tape_secrets 1) (aux := char_aux) PyNone
    (set_wordlist (Some [PyInt 7]) example_ready) (counting_tape 0)
  = (Err (Raise AttributeError "'int' object has no attribute 'lower'"),
     set_wordlist (Some [PyInt 7]) example_ready,
     mkTape (samples (counting_tape 0)) 1).
Proof. vm_compute. reflexivity. Qed.

(** * Further properties *)

(** ** Accepted assignments *)

Section Assignments.

Context {W : Type}.

(** What an accepted assignment has done to the object. *)
Lemma setter_accepts (f : field) (v : pyval) (self self' : Passphrase)
      (w w' : W) :
  setter f v self w = (Ok tt, self', w') ->
  w' = w
  /\ match f with
     | F_entropy_bits_req =>
         exists x fl,
           as_number v = Some x /\ float_of_number x = Ok fl
           /\ self' = set_entropy_bits_req (Some fl) self
     | F_randnum_min =>
         exists z, as_int v = Some z /\ 0 <= z /\ self' = set_randnum_min z self
     | F_randnum_max =>
         exists z, as_int v = Some z /\ 0 <= z /\ self' = set_randnum_max z self
     | F_amount_w =>
         exists z,
           as_int v = Some z /\ 0 <= z /\ self' = set_amount_w (Some z) self
     | F_amount_n =>
         exists z,
           as_int v = Some z /\ 0 <= z /\ self' = set_amount_n (Some z) self
     | F_passwordlen =>
         exists z,
           as_int v = Some z /\ 0 <= z /\ self' = set_passwordlen (Some z) self
     | F_separator => exists s, v = PyStr s /\ self' = set_separator s self
     | F_wordlist =>
         exists l,
           (v = PyList l \/ v = PyTuple l)
           /\ self' = set_wordlist_entropy_bits None
                        (set_wordlist (Some l) self)
     | F_password_use_lowercase =>
         self' = set_password_use_lowercase (truth v) self
     | F_password_use_uppercase =>
         self' = set_password_use_uppercase (truth v) self
     | F_password_use_digits => self' = set_password_use_digits (truth v) self
     | F_password_use_punctuation =>
         self' = set_password_use_punctuation (truth v) self
     end.
Proof.
  destruct f; simpl setter; intros E;
    unfold randnum_min_setter, randnum_max_setter, amount_w_setter,
      amount_n_setter, passwordlen_setter in E;
    try (apply int_setter_accepts in E as (z & Hv & Hz & -> & ->);
         split; [reflexivity | now exists z]);
    try (inversion E; subst; now split).
  - unfold entropy_bits_req_setter in E.
    destruct (as_number v) as [x|]; [|discriminate].
    unfold bind, raise_if, call, assign in E.
    destruct (number_negative x); [discriminate|]. unfold ret in E.
    destruct (float_of_number x) as [fl|] eqn:Hfl; inversion E; subst.
    split; [reflexivity|]. now exists x, fl.
  - destruct v; inversion E; subst. split; [reflexivity|]. now eexists.
  - destruct v; inversion E; subst; (split; [reflexivity|]); eexists; eauto.
Qed.

(** X1. An accepted assignment changes the attribute assigned to and
    nothing else; [last_result] and the random source are as they were.
    [entropy_bits_req] holds the number assigned as a [float]; each of
    [randnum_min], [randnum_max], [amount_w], [amount_n] and [passwordlen]
    holds the integer assigned, which is not negative; [separator] holds the
    [str] assigned; [wordlist] holds the elements of the list or tuple
    assigned, and the cached entropy per word is reset with it; each flag
    holds the truth value of what was assigned. *)
Theorem setter_assigns_one_attribute (f : field) (v : pyval)
        (self self' : Passphrase) (w w' : W) :
  setter f v self w = (Ok tt, self', w') ->
  w' = w
  /\ last_result self' = last_result self
  /\ match f with
     | F_entropy_bits_req =>
         exists x fl,
           as_number v = Some x /\ float_of_number x = Ok fl
           /\ self' = set_entropy_bits_req (Some fl) self
     | F_randnum_min =>
         exists z, as_int v = Some z /\ 0 <= z /\ self' = set_randnum_min z self
     | F_randnum_max =>
         exists z, as_int v = Some z /\ 0 <= z /\ self' = set_randnum_max z self
     | F_amount_w =>
         exists z,
           as_int v = Some z /\ 0 <= z /\ self' = set_amount_w (Some z) self
     | F_amount_n =>
         exists z,
           as_int v = Some z /\ 0 <= z /\ self' = set_amount_n (Some z) self
     | F_passwordlen =>
         exists z,
           as_int v = Some z /\ 0 <= z /\ self' = set_passwordlen (Some z) self
     | F_separator => exists s, v = PyStr s /\ self' = set_separator s self
     | F_wordlist =>
         exists l,
           (v = PyList l \/ v = PyTuple l)
           /\ self' = set_wordlist_entropy_bits None
                        (set_wordlist (Some l) self)
     | F_password_use_lowercase =>
         self' = set_password_use_lowercase (truth v) self
     | F_password_use_uppercase =>
         self' = set_password_use_uppercase (truth v) self
     | F_password_use_digits => self' = set_password_use_digits (truth v) self
     | F_password_use_punctuation =>
         self' = set_password_use_punctuation (truth v) self
     end.
Proof.
  intros E. apply setter_accepts in E as [-> E].
  split; [reflexivity|]. split; [|exact E].
  destruct f;
    repeat match goal with
           | H : exists _, _ |- _ => destruct H
           | H : _ /\ _ |- _ => destruct H
           end;
    subst self'; reflexivity.
Qed.

End Assignments.

Lemma setter_assigns_one_attribute_witness :
  let self' := set_randnum_max 1 example_loaded in
  tt = tt
  /\ last_result self' = last_result example_loaded
  /\ exists z,
       as_int (PyBool true) = Some z /\ 0 <= z
       /\ self' = set_randnum_max z example_loaded.
Proof.
  intros self'.
  exact (setter_assigns_one_attribute F_randnum_max (PyBool true)
           example_loaded self' tt tt eq_refl).
Defined.

(** ** The generators *)

Section Generators.

Context {W : Type} {secrets : Secrets W} {aux : Aux}.

(** A loop whose body only reads the object: what it appends. *)
Lemma append_each_ok {A} (P : A -> Prop) (body : M W A) (self : Passphrase) :
  readonly body ->
  (forall w a self' w', body self w = (Ok a, self', w') -> P a) ->
  forall n acc w r self' w',
    append_each n body acc self w = (Ok r, self', w') ->
    self' = self
    /\ exists l, r = (acc ++ l)%list /\ List.length l = n /\ Forall P l.
Proof.
  intros Hro HP n.
  induction n as [|n IH]; intros acc w r self' w' E; simpl in E.
  - inversion E; subst. split; [reflexivity|].
    exists []. rewrite app_nil_r. auto.
  - unfold bind in E.
    destruct (body self w) as [[[a|e] self1] w1] eqn:Eb; [|discriminate].
    assert (self1 = self) by (specialize (Hro self w); now rewrite Eb in Hro).
    subst self1.
    apply IH in E as (-> & l & -> & Hlen & Hall).
    split; [reflexivity|].
    exists (a :: l). rewrite <- app_assoc. simpl.
    repeat split; auto.
    constructor; [|exact Hall]. exact (HP _ _ _ _ Eb).
Qed.

(** X2. [generate] refuses an object whose [amount_n] or [amount_w] is
    unset, or whose word list is unset or empty, with a [ValueError], before
    it looks at its argument and before it draws anything. *)
Theorem generate_refuses_unready (uppercase : pyval) (self : Passphrase)
        (w : W) :
  _amount_n self = None \/ _amount_w self = None
  \/ _wordlist self = None \/ _wordlist self = Some [] ->
  generate uppercase self w = (Err generate_not_ready, self, w).
Proof.
  intros H. unfold generate, bind, get, wordlist_missing.
  destruct H as [-> | [-> | [-> | ->]]];
    repeat match goal with
           | |- context [match ?x with _ => _ end] =>
               is_var x; destruct x
           | |- context [match _amount_n self with _ => _ end] =>
               destruct (_amount_n self)
           | |- context [match _amount_w self with _ => _ end] =>
               destruct (_amount_w self)
           end; reflexivity.
Qed.

(** X3. On an object that is ready, [generate] refuses a directive that is
    neither [None] nor an [int] with a [TypeError], before it draws
    anything. *)
Theorem generate_refuses_directive (uppercase : pyval) (self : Passphrase)
        (w : W) (amount_n amount_w : Z) (word : pyval) (words : list pyval) :
  _amount_n self = Some amount_n ->
  _amount_w self = Some amount_w ->
  _wordlist self = Some (word :: words) ->
  uppercase <> PyNone ->
  isinstance_int uppercase = false ->
  generate uppercase self w
  = (Err (Raise TypeError "uppercase must be an integer number"), self, w).
Proof.
  intros Hn Hw Hl Hnone Hint.
  unfold generate, bind, get, wordlist_missing, call.
  rewrite Hn, Hw, Hl.
  unfold uppercase_directive. unfold isinstance_int in Hint.
  destruct uppercase; try contradiction; try discriminate; reflexivity.
Qed.

Lemma numbers_of_items (lo hi : Z) (l : list item) :
  Forall (fun x => exists z, x = IInt z /\ lo <= z <= hi) l ->
  exists numbers,
    l = map IInt numbers /\ Forall (fun z => lo <= z <= hi) numbers.
Proof.
  induction 1 as [|x l (z & -> & Hz) _ (numbers & -> & Hall)].
  - now exists [].
  - exists (z :: numbers). split; [reflexivity | now constructor].
Qed.

(** X4. What a completed [generate] returns, when the random source chooses
    among what it is given: [amount_w] words of the word list, lower-cased,
    as the uppercase block leaves them, followed by [amount_n] integers
    between [randnum_min] and [randnum_max]; the same sequence is stored in
    [last_result], and nothing else of the object changes. *)
Theorem generate_returns (uppercase : pyval) (self self' : Passphrase)
        (w w' : W) (r : list item) :
  chooses_members secrets ->
  draws_in_range secrets ->
  generate uppercase self w = (Ok r, self', w') ->
  exists amount_w amount_n wordlist directive words words' numbers,
    _amount_w self = Some amount_w
    /\ _amount_n self = Some amount_n
    /\ _wordlist self = Some wordlist
    /\ uppercase_directive uppercase = Ok directive
    /\ List.length words = Z.to_nat amount_w
    /\ Forall (lowered_word_of wordlist) words
    /\ handle_uppercase words directive = Ok words'
    /\ List.length numbers = Z.to_nat amount_n
    /\ Forall (fun z => _randnum_min self <= z <= _randnum_max self) numbers
    /\ r = (words' ++ map IInt numbers)%list
    /\ self' = set_last_result (Some r) self.
Proof.
  intros Hchoice Hrange E.
  unfold generate in E. unfold bind at 1 2 3 in E. unfold get in E.
  destruct (_amount_n self) as [amount_n|] eqn:Hn; [|discriminate].
  destruct (_amount_w self) as [amount_w|] eqn:Hw; [|discriminate].
  unfold wordlist_missing in E.
  destruct (_wordlist self) as [[|word wl]|] eqn:Hl; try discriminate.
  unfold bind at 1 in E. unfold call at 1 in E.
  destruct (uppercase_directive uppercase) as [directive|] eqn:Hd;
    [|discriminate].
  unfold bind at 1 in E.
  match type of E with
  | context [append_each ?n ?body [] self w] =>
      destruct (append_each n body [] self w) as [[[words|e] self1] w1] eqn:Ew;
      [|discriminate];
      apply (append_each_ok (lowered_word_of (word :: wl)) body self) in Ew
        as (-> & l & -> & Hlen & Hwords)
  end.
  2: { readonly_steps. }
  2: { intros w0 a s0 w0' Eb.
       unfold bind, get, draw, call, wordlist_seq in Eb. rewrite Hl in Eb.
       destruct (randchoice (word :: wl) w0) as [[x|e] w2] eqn:Ec;
         [|discriminate].
       apply Hchoice in Ec.
       destruct x; try discriminate. inversion Eb; subst.
       now exists s. }
  simpl app in E.
  unfold bind at 1 in E. unfold call at 1 in E.
  destruct (handle_uppercase l directive) as [words'|] eqn:Hu; [|discriminate].
  unfold bind at 1 in E.
  match type of E with
  | context [append_each ?n ?body words' self w1] =>
      destruct (append_each n body words' self w1)
        as [[[r1|e] self1] w2] eqn:En;
      [|discriminate];
      apply (append_each_ok
               (fun x => exists z, x = IInt z
                                   /\ _randnum_min self <= z
                                      <= _randnum_max self) body self) in En
        as (-> & l2 & -> & Hlen2 & Hnums)
  end.
  2: { readonly_steps. }
  2: { intros w0 a s0 w0' Eb.
       unfold bind, get, draw, ret in Eb.
       destruct (randbetween (_randnum_min self) (_randnum_max self) w0)
         as [[z|e] w3] eqn:Er; [|discriminate].
       apply Hrange in Er. inversion Eb; subst. now exists z. }
  apply numbers_of_items in Hnums as (numbers & -> & Hnums).
  unfold bind, assign, ret in E. inversion E; subst.
  rewrite length_map in Hlen2.
  exists amount_w, amount_n, (word :: wl), directive, l, words', numbers.
  repeat split; auto.
Qed.

End Generators.

(** The random source read from a tape keeps to what it is given. *)
Lemma tape_chooses_members (per_unit : nat) :
  chooses_members (tape_secrets per_unit).
Proof.
  intros A seq w w' a E.
  change (tape_randchoice seq w = (Ok a, w')) in E.
  unfold tape_randchoice in E.
  destruct seq as [|a0 seq]; [discriminate|].
  remember (a0 :: seq) as l eqn:Hl.
  destruct (sample w) as [z t']. inversion E; subst a.
  apply nth_In.
  assert (Hlen : 0 < Z.of_nat (List.length l)) by (subst l; simpl; lia).
  pose proof (Z.mod_pos_bound z _ Hlen). lia.
Qed.

Lemma tape_draws_in_range (per_unit : nat) :
  draws_in_range (tape_secrets per_unit).
Proof.
  intros lo hi z w w' E.
  change (tape_randbetween lo hi w = (Ok z, w')) in E.
  unfold tape_randbetween in E.
  destruct (Z.ltb_spec hi lo) as [|Hle]; [discriminate|].
  destruct (sample w) as [x t']. inversion E; subst.
  pose proof (Z.mod_pos_bound x (hi - lo + 1) ltac:(lia)). lia.
Qed.

Lemma generate_refuses_unready_witness :
  generate (secrets := tape_secrets 1) (aux := char_aux) (PyStr "all")
    (set_wordlist (Some []) example_ready) (counting_tape 0)
  = (Err generate_not_ready, set_wordlist (Some []) example_ready,
     counting_tape 0).
Proof.
  apply generate_refuses_unready. right. right. right. reflexivity.
Defined.

Lemma generate_refuses_directive_witness :
  generate (secrets := tape_secrets 1) (aux := char_aux) (PyFloat float_zero)
    example_ready (counting_tape 0)
  = (Err (Raise TypeError "uppercase must be an integer number"),
     example_ready, counting_tape 0).
Proof.
  apply (generate_refuses_directive (PyFloat float_zero) example_ready
           (counting_tape 0) 1 3 (PyStr "abacus")
           (map PyStr ["abdomen"; "abdominal"; "abide"; "abiding";
                       "ability"; "ablaze"; "able"]));
    try reflexivity.
  discriminate.
Defined.

Lemma generate_returns_witness :
  exists amount_w amount_n wordlist directive words words' numbers,
    _amount_w example_ready = Some amount_w
    /\ _amount_n example_ready = Some amount_n
    /\ _wordlist example_ready = Some wordlist
    /\ uppercase_directive (PyInt (-1)) = Ok directive
    /\ List.length words = Z.to_nat amount_w
    /\ Forall (lowered_word_of wordlist) words
    /\ handle_uppercase (aux := char_aux) words directive = Ok words'
    /\ List.length numbers = Z.to_nat amount_n
    /\ Forall (fun z => _randnum_min example_ready <= z
                        <= _randnum_max example_ready) numbers
    /\ [IStr "ABILITY"; IStr "ABLAZE"; IStr "ABLe"; IInt 100008]
       = (words' ++ map IInt numbers)%list
    /\ set_last_result
         (Some [IStr "ABILITY"; IStr "ABLAZE"; IStr "ABLe"; IInt 100008])
         example_ready
       = set_last_result
           (Some [IStr "ABILITY"; IStr "ABLAZE"; IStr "ABLe"; IInt 100008])
           example_ready.
Proof.
  apply (generate_returns (secrets := tape_secrets 1) (aux := char_aux)
           (PyInt (-1)) example_ready _ (counting_tape 5)
           (mkTape (samples (counting_tape 5)) 4)).
  - apply tape_chooses_members.
  - apply tape_draws_in_range.
  - vm_compute. reflexivity.
Defined.

(** ** The character set *)

Lemma characters_by_flags (self : Passphrase) :
  _get_password_characters self
  = characters_of (_password_use_lowercase self)
      (_password_use_uppercase self) (_password_use_digits self)
      (_password_use_punctuation self).
Proof. reflexivity. Qed.

Lemma existsb_eqb_In (c : ascii) (l : list ascii) :
  existsb (Ascii.eqb c) l = true <-> In c l.
Proof.
  rewrite existsb_exists. split.
  - intros (x & Hin & Heq). apply Ascii.eqb_eq in Heq. now subst.
  - intros Hin. exists c. split; [exact Hin | apply Ascii.eqb_refl].
Qed.

Lemma distinct_NoDup (l : list ascii) : distinct l = true -> NoDup l.
Proof.
  induction l as [|c l IH]; simpl; intros H.
  - constructor.
  - apply andb_prop in H as [Hc Hl]. constructor; [|now apply IH].
    intros Hin. apply existsb_eqb_In in Hin. now rewrite Hin in Hc.
Qed.

Lemma characters_of_member (l u d p : bool) (c : ascii) :
  existsb (Ascii.eqb c) (list_ascii_of_string (characters_of l u d p))
  = (l && is_ascii_lower c) || (u && is_ascii_upper c)
    || (d && is_digit_char c) || (p && is_punctuation_char c).
Proof.
  destruct l, u, d, p;
    destruct c as [[] [] [] [] [] [] [] []]; vm_compute; reflexivity.
Qed.

Lemma password_characters_member (self : Passphrase) (c : ascii) :
  In c (list_ascii_of_string (_get_password_characters self))
  <-> in_enabled_class self c = true.
Proof.
  rewrite characters_by_flags. unfold in_enabled_class.
  rewrite <- existsb_eqb_In, characters_of_member. reflexivity.
Qed.

(** X5. The character set of an object holds exactly the characters of the
    classes it has enabled, each of them once: [26] lowercase letters, [26]
    uppercase letters, [10] digits and [32] punctuation marks, in that
    order of classes; it is empty when no class is enabled, and only then. *)
Theorem password_characters_by_class (self : Passphrase) :
  let characters := _get_password_characters self in
  (forall c,
      In c (list_ascii_of_string characters)
      <-> in_enabled_class self c = true)
  /\ NoDup (list_ascii_of_string characters)
  /\ String.length characters
     = (count_if (_password_use_lowercase self) 26
        + count_if (_password_use_uppercase self) 26
        + count_if (_password_use_digits self) 10
        + count_if (_password_use_punctuation self) 32)%nat
  /\ (characters = ""
      <-> _password_use_lowercase self = false
          /\ _password_use_uppercase self = false
          /\ _password_use_digits self = false
          /\ _password_use_punctuation self = false).
Proof.
  cbv zeta.
  split; [intros c; apply password_characters_member|].
  rewrite characters_by_flags.
  split; [|split].
  - apply distinct_NoDup.
    destruct (_password_use_lowercase self), (_password_use_uppercase self),
      (_password_use_digits self), (_password_use_punctuation self);
      vm_compute; reflexivity.
  - destruct (_password_use_lowercase self), (_password_use_uppercase self),
      (_password_use_digits self), (_password_use_punctuation self);
      vm_compute; reflexivity.
  - destruct (_password_use_lowercase self), (_password_use_uppercase self),
      (_password_use_digits self), (_password_use_punctuation self);
      (split; [try (vm_compute; discriminate); intros _; repeat split
              | try reflexivity; intros (? & ? & ? & ?); discriminate]).
Qed.

(** ** [generate_password] *)

Section GeneratePassword.

Context {W : Type} {secrets : Secrets W}.

(** X6. [generate_password] refuses an object whose [passwordlen] is unset
    or whose four character classes are all disabled, with a [ValueError],
    before it draws anything. *)
Theorem generate_password_refuses_unready (self : Passphrase) (w : W) :
  _passwordlen self = None
  \/ (_password_use_lowercase self = false
      /\ _password_use_uppercase self = false
      /\ _password_use_digits self = false
      /\ _password_use_punctuation self = false) ->
  generate_password self w = (Err generate_password_not_ready, self, w).
Proof.
  intros H. unfold generate_password, bind, get.
  destruct H as [-> | (Hl & Hu & Hd & Hp)]; [reflexivity|].
  rewrite characters_by_flags, Hl, Hu, Hd, Hp.
  destruct (_passwordlen self); reflexivity.
Qed.

(** X7. What a completed [generate_password] returns, when the random
    source chooses among what it is given: [passwordlen] strings of one
    character each, every character from an enabled class; the same
    sequence is stored in [last_result], and nothing else of the object
    changes. *)
Theorem generate_password_returns (self self' : Passphrase) (w w' : W)
        (r : list item) :
  chooses_members secrets ->
  generate_password self w = (Ok r, self', w') ->
  exists passwordlen,
    _passwordlen self = Some passwordlen
    /\ List.length r = Z.to_nat passwordlen
    /\ Forall (character_of (_get_password_characters self)) r
    /\ Forall (fun x => exists c, x = IStr (String c "")
                                  /\ in_enabled_class self c = true) r
    /\ self' = set_last_result (Some r) self.
Proof.
  intros Hchoice E.
  unfold generate_password in E. unfold bind at 1 2 in E. unfold get in E.
  destruct (_passwordlen self) as [passwordlen|] eqn:Hlen; [|discriminate].
  destruct (String.eqb (_get_password_characters self) ""); [discriminate|].
  unfold bind at 1 in E.
  match type of E with
  | context [append_each ?n ?body [] self w] =>
      destruct (append_each n body [] self w) as [[[pw|e] self1] w1] eqn:Ep;
      [|discriminate];
      apply (append_each_ok
               (character_of (_get_password_characters self)) body self)
        in Ep as (-> & l & -> & Hn & Hall)
  end.
  2: { readonly_steps. }
  2: { intros w0 a s0 w0' Eb. unfold bind, draw, ret in Eb.
       match type of Eb with
       | context [randchoice ?seq w0] =>
           destruct (randchoice seq w0) as [[c|e] w2] eqn:Ec; [|discriminate]
       end.
       apply Hchoice in Ec. inversion Eb; subst. now exists c. }
  simpl app in E. unfold bind, assign, ret in E. inversion E; subst.
  exists passwordlen. repeat split; auto.
  eapply Forall_impl; [|exact Hall].
  intros x (c & Hin & ->). exists c. split; [reflexivity|].
  now apply password_characters_member.
Qed.

End GeneratePassword.

Lemma generate_password_refuses_unready_witness :
  let off :=
    set_password_use_lowercase false
      (set_password_use_uppercase false
         (set_password_use_digits false
            (set_password_use_punctuation false
               (set_passwordlen (Some 8) example_object)))) in
  generate_password (secrets := tape_secrets 1) off (counting_tape 0)
  = (Err generate_password_not_ready, off, counting_tape 0).
Proof.
  intros off. apply generate_password_refuses_unready.
  right. repeat split.
Defined.

Lemma generate_password_returns_witness :
  let ready :=
    set_password_use_punctuation false
      (set_passwordlen (Some 4) example_object) in
  let r := [IStr "8"; IStr "9"; IStr "a"; IStr "b"] in
  exists passwordlen,
    _passwordlen ready = Some passwordlen
    /\ List.length r = Z.to_nat passwordlen
    /\ Forall (character_of (_get_password_characters ready)) r
    /\ Forall (fun x => exists c, x = IStr (String c "")
                                  /\ in_enabled_class ready c = true) r
    /\ set_last_result (Some r) ready = set_last_result (Some r) ready.
Proof.
  intros ready r.
  apply (generate_password_returns (secrets := tape_secrets 1) ready _
           (counting_tape 60) (mkTape (samples (counting_tape 60)) 4)).
  - apply tape_chooses_members.
  - vm_compute. reflexivity.
Defined.

(** ** The uppercase block and its helpers *)

Section UppercaseBlock.

Context {aux : Aux}.

(** X8. Which helper the uppercase block of [generate] calls, for any
    helpers: none when the directive is [None] or no word was drawn; with
    [lowercase >= 0] the count [Aux.lowercase_count] gives, [make_all_uppercase]
    for a directive that is [0] or above [lowercase],
    [make_chars_uppercase] with the directive itself when it is positive and
    at most [lowercase], and with [lowercase + uppercase] when it is
    negative and [lowercase > -uppercase]; a negative directive beyond that
    leaves the words as they are. The count given to
    [make_chars_uppercase] is always between [1] and [lowercase]. *)
Theorem handle_uppercase_calls (passphrase : list item) (uppercase : option Z)
        (lowercase : Z) :
  lowercase_count passphrase = Ok lowercase ->
  0 <= lowercase ->
  match passphrase, uppercase with
  | [], _ | _, None => handle_uppercase passphrase uppercase = Ok passphrase
  | _ :: _, Some u =>
      ((u = 0 \/ lowercase < u)
       /\ handle_uppercase passphrase uppercase
          = make_all_uppercase passphrase)
      \/ (0 < u <= lowercase
          /\ handle_uppercase passphrase uppercase
             = make_chars_uppercase passphrase u)
      \/ (u < 0 /\ - u < lowercase
          /\ 0 < lowercase + u < lowercase
          /\ handle_uppercase passphrase uppercase
             = make_chars_uppercase passphrase (lowercase + u))
      \/ (u < 0 /\ lowercase <= - u
          /\ handle_uppercase passphrase uppercase = Ok passphrase)
  end.
Proof.
  intros Hcount Hnat. unfold handle_uppercase. rewrite Hcount. simpl rbind.
  destruct passphrase as [|x xs]; [reflexivity|].
  destruct uppercase as [u|]; [|reflexivity].
  unfold effective_uppercase. rewrite !Z.gtb_ltb.
  destruct (Z.ltb_spec u 0) as [Hneg|Hpos].
  - destruct (Z.ltb_spec (u * -1) lowercase) as [Hin|Hout];
      cbv beta iota delta [andb].
    + destruct (Z.eqb_spec (lowercase + u) 0) as [|_]; [lia|].
      destruct (Z.ltb_spec lowercase (lowercase + u)) as [|_]; [lia|].
      destruct (Z.ltb_spec 0 (lowercase + u)) as [_|]; [|lia].
      right. right. left. repeat split; lia || reflexivity.
    + destruct (Z.eqb_spec u 0) as [|_]; [lia|].
      destruct (Z.ltb_spec lowercase u) as [|_]; [lia|].
      destruct (Z.ltb_spec 0 u) as [|_]; [lia|].
      right. right. right. repeat split; lia || reflexivity.
  - cbv beta iota delta [andb].
    destruct (Z.eqb_spec u 0) as [Hz|Hnz].
    + left. split; [now left | reflexivity].
    + destruct (Z.ltb_spec lowercase u) as [Hbig|Hsmall].
      * left. split; [now right | reflexivity].
      * destruct (Z.ltb_spec 0 u) as [_|]; [|lia].
        right. left. split; [lia | reflexivity].
Qed.

End UppercaseBlock.

Lemma handle_uppercase_calls_witness :
  (4 = 0 \/ 30 < 4)
  /\ handle_uppercase (aux := char_aux) five_words (Some 4)
     = char_make_all_uppercase five_words
  \/ 0 < 4 <= 30
     /\ handle_uppercase (aux := char_aux) five_words (Some 4)
        = char_make_chars_uppercase five_words 4
  \/ 4 < 0 /\ - (4) < 30 /\ 0 < 30 + 4 < 30
     /\ handle_uppercase (aux := char_aux) five_words (Some 4)
        = char_make_chars_uppercase five_words (30 + 4)
  \/ 4 < 0 /\ 30 <= - (4)
     /\ handle_uppercase (aux := char_aux) five_words (Some 4)
        = Ok five_words.
Proof.
  exact (handle_uppercase_calls (aux := char_aux) five_words (Some 4) 30
           eq_refl ltac:(discriminate)).
Defined.

(** ** The parts of a UUID *)

Lemma substring_empty (n m : nat) : substring n m "" = "".
Proof. destruct n, m; reflexivity. Qed.

Lemma substring_join (s : string) (n m k : nat) :
  substring n m s ++ substring (n + m) k s = substring n (m + k) s.
Proof.
  revert n m k.
  induction s as [|c s IH]; intros n m k.
  - now rewrite !substring_empty.
  - destruct n as [|n].
    + destruct m as [|m]; simpl.
      * reflexivity.
      * now rewrite <- (IH 0%nat m k).
    + simpl. destruct m as [|m]; apply IH.
Qed.

Lemma substring_whole (s : string) (m : nat) :
  (String.length s <= m)%nat -> substring 0 m s = s.
Proof.
  revert m. induction s as [|c s IH]; intros [|m] H; simpl in *;
    try reflexivity; try lia.
  rewrite IH by lia. reflexivity.
Qed.

(** The five slices of [generate_uuid4] leave out nothing of the string and
    take nothing twice. *)
Lemma uuid4_slices_partition (hexstr : string) :
  slice 0 8 hexstr ++ slice 8 12 hexstr ++ slice 12 15 hexstr
    ++ slice 15 18 hexstr ++ slice_from 18 hexstr
  = hexstr.
Proof.
  unfold slice, slice_from. simpl Nat.sub.
  rewrite (substring_join hexstr 15 3).
  rewrite (substring_join hexstr 12 3).
  rewrite (substring_join hexstr 8 4).
  rewrite (substring_join hexstr 0 8).
  apply substring_whole. lia.
Qed.

Section Uuid4Parts.

Context {W : Type} {secrets : Secrets W}.

(** X9. Once [randhex(30)] and then [randbetween(8, 11)] have answered,
    [generate_uuid4] returns and stores five parts, whatever string
    [randhex] gave: that string cut in order after 8, 12, 15 and 18
    characters, nothing left out or taken twice, with [4] put before the
    third part and the number, in hexadecimal, before the fourth. A string
    shorter than 18 characters gives shorter or empty parts, not an
    exception. *)
Theorem generate_uuid4_uses_every_digit (self : Passphrase) (w w1 w2 : W)
        (hexstr : string) (variant : Z) :
  randhex 30 w = (Ok hexstr, w1) ->
  randbetween 8 11 w1 = (Ok variant, w2) ->
  exists p1 p2 p3 p4 p5,
    let uuid4 := [IStr p1; IStr p2; IStr ("4" ++ p3);
                  IStr (format_x variant ++ p4); IStr p5] in
    generate_uuid4 self w = (Ok uuid4, set_last_result (Some uuid4) self, w2)
    /\ p1 ++ p2 ++ p3 ++ p4 ++ p5 = hexstr
    /\ String.length p1 = Nat.min 8 (String.length hexstr)
    /\ String.length p2 = Nat.min 4 (String.length hexstr - 8)
    /\ String.length p3 = Nat.min 3 (String.length hexstr - 12)
    /\ String.length p4 = Nat.min 3 (String.length hexstr - 15)
    /\ String.length p5 = (String.length hexstr - 18)%nat.
Proof.
  intros Hhex Hvar.
  exists (slice 0 8 hexstr), (slice 8 12 hexstr), (slice 12 15 hexstr),
    (slice 15 18 hexstr), (slice_from 18 hexstr).
  cbv zeta.
  split; [exact (generate_uuid4_run self w w1 w2 hexstr variant Hhex Hvar)|].
  split; [apply uuid4_slices_partition|].
  unfold slice, slice_from. rewrite !length_substring. simpl Nat.sub.
  rewrite Nat.sub_0_r, Nat.min_id. repeat split.
Qed.

End Uuid4Parts.

Lemma generate_uuid4_uses_every_digit_witness :
  exists p1 p2 p3 p4 p5,
    let uuid4 := [IStr p1; IStr p2; IStr ("4" ++ p3);
                  IStr (format_x 8 ++ p4); IStr p5] in
    generate_uuid4 (secrets := spec_secrets) example_object (counting_tape 0)
    = (Ok uuid4, set_last_result (Some uuid4) example_object,
       mkTape (samples (counting_tape 0)) 61)
    /\ p1 ++ p2 ++ p3 ++ p4 ++ p5
       = "0123456789abcdef0123456789abcdef0123456789abcdef0123456789ab"
    /\ String.length p1 = Nat.min 8 60
    /\ String.length p2 = Nat.min 4 (60 - 8)
    /\ String.length p3 = Nat.min 3 (60 - 12)
    /\ String.length p4 = Nat.min 3 (60 - 15)
    /\ String.length p5 = (60 - 18)%nat.
Proof.
  apply (generate_uuid4_uses_every_digit (secrets := spec_secrets)
           example_object (counting_tape 0)
           (mkTape (samples (counting_tape 0)) 60)
           (mkTape (samples (counting_tape 0)) 61)
           "0123456789abcdef0123456789abcdef0123456789abcdef0123456789ab" 8).
  - vm_compute. reflexivity.
  - vm_compute. reflexivity.
Defined.

(** ** Words read from a file *)

Lemma lstrip_first (s : string) : first_is_space (lstrip s) = false.
Proof.
  induction s as [|c s IH]; simpl.
  - reflexivity.
  - destruct (is_space c) eqn:Hc; [exact IH | simpl; exact Hc].
Qed.

Lemma rstrip_first (s : string) :
  first_is_space s = false -> first_is_space (rstrip s) = false.
Proof.
  destruct s as [|c s]; simpl; intros Hc.
  - reflexivity.
  - destruct (rstrip s); [rewrite Hc|]; simpl; exact Hc.
Qed.

Lemma rstrip_last (s : string) : last_is_space (rstrip s) = false.
Proof.
  induction s as [|c s IH]; simpl.
  - reflexivity.
  - destruct (rstrip s) as [|d r].
    + destruct (is_space c) eqn:Hc; simpl; [reflexivity | exact Hc].
    + exact IH.
Qed.

Lemma strip_stripped (s : string) :
  first_is_space (strip s) = false /\ last_is_space (strip s) = false.
Proof.
  unfold strip. split.
  - apply rstrip_first, lstrip_first.
  - apply rstrip_last.
Qed.

Lemma lstrip_prefix (s : string) :
  exists pre,
    s = (pre ++ lstrip s)%string /\ forall_string is_space pre = true.
Proof.
  induction s as [|c s (pre & Heq & Hpre)]; simpl.
  - now exists EmptyString.
  - destruct (is_space c) eqn:Hc.
    + exists (String c pre). simpl. rewrite Hc, Hpre. now rewrite <- Heq.
    + now exists EmptyString.
Qed.

Lemma rstrip_suffix (s : string) :
  exists post,
    s = (rstrip s ++ post)%string /\ forall_string is_space post = true.
Proof.
  induction s as [|c s (post & Heq & Hpost)]; simpl.
  - now exists EmptyString.
  - destruct (rstrip s) as [|d r].
    + simpl in Heq. subst post. destruct (is_space c) eqn:Hc.
      * exists (String c s). simpl. now rewrite Hc, Hpost.
      * now exists s.
    + exists post. split; [|exact Hpost].
      change (String c s = String c (String d r ++ post)%string).
      now rewrite <- Heq.
Qed.

(** [strip] takes whitespace off both ends of a line, all of it and
    nothing else. *)
Lemma strip_stripped_of (line : string) : stripped_of line (PyStr (strip line)).
Proof.
  destruct (lstrip_prefix line) as (pre & Hline & Hpre).
  destruct (rstrip_suffix (lstrip line)) as (post & Hrest & Hpost).
  exists pre, (strip line), post.
  split; [reflexivity|]. split.
  { unfold strip. now rewrite <- Hrest. }
  split; [exact Hpre|]. split; [exact Hpost|].
  unfold strip. split; [apply rstrip_first, lstrip_first | apply rstrip_last].
Qed.

Lemma strip_blank (s : string) :
  forall_string is_space s = true -> strip s = "".
Proof.
  unfold strip. induction s as [|c s IH]; simpl; intros H.
  - reflexivity.
  - apply andb_prop in H as [Hc Hs]. rewrite Hc. now apply IH.
Qed.

Lemma exists_string_of_list (f : ascii -> bool) (l : list ascii) :
  exists_string f (string_of_list_ascii l) = existsb f l.
Proof.
  induction l as [|c l IH]; simpl; [reflexivity | now rewrite IH].
Qed.

Lemma existsb_rev {A} (f : A -> bool) (l : list A) :
  existsb f (rev l) = existsb f l.
Proof.
  induction l as [|a l IH]; simpl; [reflexivity|].
  rewrite existsb_app, IH. simpl. rewrite orb_false_r. apply orb_comm.
Qed.

(** Every column of a line holds a character and no whitespace. *)
Lemma split_ws_columns (s : string) (cur : list ascii) :
  existsb is_space cur = false ->
  Forall (fun w => w <> "" /\ has_space w = false) (split_ws cur s).
Proof.
  revert cur.
  assert (Hflush : forall cur rest,
             existsb is_space cur = false ->
             Forall (fun w => w <> "" /\ has_space w = false) rest ->
             Forall (fun w => w <> "" /\ has_space w = false)
               match cur with
               | [] => rest
               | _ => string_of_list_ascii (rev cur) :: rest
               end).
  { intros [|c cur] rest Hcur Hrest; [exact Hrest|].
    constructor; [|exact Hrest]. split.
    - intros Hempty.
      apply (f_equal list_ascii_of_string) in Hempty.
      rewrite list_ascii_of_string_of_list_ascii in Hempty.
      simpl in Hempty. now destruct (rev cur).
    - unfold has_space. now rewrite exists_string_of_list, existsb_rev. }
  induction s as [|c s IH]; intros cur Hcur; simpl.
  - apply Hflush; [exact Hcur | constructor].
  - destruct (is_space c) eqn:Hc.
    + apply Hflush; [exact Hcur | now apply IH].
    + apply IH. simpl. now rewrite Hc.
Qed.

Lemma map_result_ok {A B} (f : A -> result B) (g : A -> B) (l : list A) :
  Forall (fun a => f a = Ok (g a)) l -> map_result f l = Ok (map g l).
Proof.
  induction 1 as [|a l Ha _ IH]; simpl.
  - reflexivity.
  - now rewrite Ha, IH.
Qed.

Lemma map_result_err {A B} (f : A -> result B) (e : exn) (l : list A) :
  Forall (fun a => f a = Err e \/ exists b, f a = Ok b) l ->
  Exists (fun a => f a = Err e) l ->
  map_result f l = Err e.
Proof.
  induction 1 as [|a l Ha _ IH]; intros Hex; simpl.
  - inversion Hex.
  - destruct Ha as [Ha | (b & Ha)]; rewrite Ha; simpl; [reflexivity|].
    inversion Hex as [? ? Hhd | ? ? Htl]; subst.
    + congruence.
    + now rewrite (IH Htl).
Qed.

Section ReadWords.

Context {files : TextFiles}.

(** X10. [_read_words_from_wordfile] gives one word for each line of the
    file, in order: the line without the whitespace around it, all of that
    whitespace and nothing else, so a word neither starts nor ends with
    whitespace and a blank line gives the empty word; it fails only as
    opening the file fails. *)
Theorem read_words_from_wordfile_strips (inputfile : string)
        (lines : list string) :
  open_rt inputfile = Ok lines ->
  exists words,
    _read_words_from_wordfile inputfile = Ok words
    /\ Forall2 stripped_of lines words
    /\ List.length words = List.length lines
    /\ Forall stripped_word words
    /\ (forall i line,
           nth_error lines i = Some line ->
           forall_string is_space line = true ->
           nth_error words i = Some (PyStr "")).
Proof.
  intros Hopen. unfold _read_words_from_wordfile. rewrite Hopen. simpl rbind.
  eexists. split; [reflexivity|]. split; [|split; [apply length_map|split]].
  - clear Hopen. induction lines as [|line lines IH]; simpl; constructor;
      [apply strip_stripped_of | exact IH].
  - apply Forall_map, Forall_forall. intros line _.
    exists (strip line). split; [reflexivity | apply strip_stripped].
  - intros i line Hi Hblank.
    rewrite nth_error_map, Hi. simpl. now rewrite strip_blank.
Qed.

(** X11. [_read_words_from_diceware] gives the second column of each line,
    in order, when every line has two columns or more: a word that is not
    empty and has no whitespace in it. A line of fewer than two columns,
    a blank line included, makes it fail with an [IndexError]. *)
Theorem read_words_from_diceware_columns (inputfile : string)
        (lines : list string) :
  open_rt inputfile = Ok lines ->
  (Forall (fun line => (2 <= columns line)%nat) lines ->
   _read_words_from_diceware inputfile
   = Ok (map (fun line => PyStr (second_column line)) lines)
   /\ Forall column_word (map (fun line => PyStr (second_column line)) lines))
  /\ (Exists (fun line => (columns line < 2)%nat) lines ->
      _read_words_from_diceware inputfile
      = Err (Raise IndexError "list index out of range")).
Proof.
  intros Hopen. unfold _read_words_from_diceware. rewrite Hopen.
  cbv beta iota delta [rbind].
  assert (Hline : forall line,
             ((2 <= columns line)%nat ->
              nth_error (split line) 1 = Some (second_column line)
              /\ column_word (PyStr (second_column line)))
             /\ ((columns line < 2)%nat -> nth_error (split line) 1 = None)).
  { intros line. unfold columns, second_column.
    pose proof (split_ws_columns line [] eq_refl) as Hcols.
    fold (split line) in Hcols.
    destruct (split line) as [|a [|b l]]; simpl; split; intros H;
      try lia; try reflexivity.
    split; [reflexivity|].
    inversion Hcols as [|? ? _ Htl]; subst.
    inversion Htl as [|? ? [Hb1 Hb2] _]; subst.
    now exists b. }
  split.
  - intros Hall. split.
    + apply map_result_ok. eapply Forall_impl; [|exact Hall].
      intros line H. cbv beta. destruct (Hline line) as [Hok _].
      destruct (Hok H) as [-> _]. reflexivity.
    + apply Forall_map. eapply Forall_impl; [|exact Hall].
      intros line H. now apply Hline.
  - intros Hex. apply map_result_err.
    + apply Forall_forall. intros line _. cbv beta.
      destruct (nth_error (split line) 1); [right; eauto | now left].
    + eapply Exists_impl; [|exact Hex].
      intros line H. cbv beta. destruct (Hline line) as [_ Hnone].
      now rewrite (Hnone H).
Qed.

End ReadWords.

Lemma read_words_from_wordfile_strips_witness :
  exists words,
    _read_words_from_wordfile (files := fs_files example_fs) "words.txt"
    = Ok words
    /\ Forall2 stripped_of
         (readlines ("Abacus" ++ String newline ""
                       ++ "  abdomen " ++ String newline "")) words
    /\ List.length words = 2%nat
    /\ Forall stripped_word words
    /\ (forall i line,
           nth_error (readlines ("Abacus" ++ String newline ""
                                   ++ "  abdomen " ++ String newline "")) i
           = Some line ->
           forall_string is_space line = true ->
           nth_error words i = Some (PyStr "")).
Proof.
  exact (read_words_from_wordfile_strips (files := fs_files example_fs)
           "words.txt" _ eq_refl).
Defined.

Lemma read_words_from_diceware_columns_witness :
  _read_words_from_diceware (files := fs_files example_fs) "dice.txt"
  = Ok [PyStr "abacus"; PyStr "abdomen"]
  /\ _read_words_from_diceware (files := fs_files example_fs) "broken.txt"
     = Err (Raise IndexError "list index out of range").
Proof.
  split.
  - destruct (read_words_from_diceware_columns (files := fs_files example_fs)
                "dice.txt" _ eq_refl) as [Hok _].
    refine (proj1 (Hok _)).
    repeat constructor.
  - destruct (read_words_from_diceware_columns (files := fs_files example_fs)
                "broken.txt" _ eq_refl) as [_ Herr].
    apply Herr. apply Exists_cons_tl, Exists_cons_hd. vm_compute. lia.
Defined.

(** ** Importing a word list *)

Lemma map_result_inv {A B} (f : A -> result B) (l : list A) (bs : list B) :
  map_result f l = Ok bs -> Forall2 (fun a b => f a = Ok b) l bs.
Proof.
  revert bs. induction l as [|a l IH]; simpl; intros bs E.
  - inversion E. constructor.
  - destruct (f a) as [b|] eqn:Ha; [|discriminate]. simpl in E.
    destruct (map_result f l) as [bs'|]; [|discriminate].
    inversion E; subst. constructor; [exact Ha | now apply IH].
Qed.

Section ImportWords.

Context {W : Type} {builtin : Wordlist} {files : TextFiles}.

Lemma reader_words (is_diceware : bool) (inputfile : string)
      (words : list pyval) :
  reader is_diceware inputfile = Ok words ->
  Forall (read_word is_diceware) words.
Proof.
  destruct is_diceware; simpl.
  - unfold _read_words_from_diceware, rbind.
    destruct (open_rt inputfile) as [lines|]; [|discriminate].
    intros E. apply map_result_inv in E.
    induction E as [|line x lines words Hx _ IH]; constructor; [|exact IH].
    destruct (nth_error (split line) 1) as [col|] eqn:Hcol; [|discriminate].
    inversion Hx; subst. exists col. split; [reflexivity|].
    apply nth_error_In in Hcol.
    pose proof (split_ws_columns line [] eq_refl) as Hall.
    rewrite Forall_forall in Hall. exact (Hall col Hcol).
  - unfold _read_words_from_wordfile, rbind.
    destruct (open_rt inputfile) as [lines|]; [|discriminate].
    intros E. inversion E. apply Forall_map, Forall_forall. intros line _.
    exists (strip line). split; [reflexivity | apply strip_stripped].
Qed.

(** X12. A completed [import_words_from_file] has found the file fit, has
    read it with the reader of the format asked for, and has put the words
    read in place of the word list: every one a [str], stripped for a word
    file, a whole column for a diceware file. The cached entropy per word is
    reset; every other attribute, [last_result] and the random source are as
    they were. *)
Theorem import_words_from_file_completed (inputfile : string)
        (is_diceware : bool) (self self' : Passphrase) (w w' : W) :
  import_words_from_file inputfile is_diceware self w = (Ok tt, self', w') ->
  isfile_notempty inputfile = Ok true
  /\ (exists words,
         reader is_diceware inputfile = Ok words
         /\ Forall (read_word is_diceware) words
         /\ self' = set_wordlist (Some words)
                      (set_wordlist_entropy_bits None self))
  /\ last_result self' = last_result self
  /\ w' = w.
Proof.
  unfold import_words_from_file, bind, call, raise_if, assign, raise, ret.
  destruct (isfile_notempty inputfile) as [[|]|e]; simpl; try discriminate.
  intros E. split; [reflexivity|].
  assert (H : exists words,
             reader is_diceware inputfile = Ok words
             /\ self' = set_wordlist (Some words)
                          (set_wordlist_entropy_bits None self)
             /\ w' = w).
  { unfold reader. destruct is_diceware.
    - destruct (_read_words_from_diceware inputfile) as [words|];
        inversion E. now exists words.
    - destruct (_read_words_from_wordfile inputfile) as [words|];
        inversion E. now exists words. }
  destruct H as (words & Hread & -> & ->).
  split; [|split]; try reflexivity.
  exists words. split; [exact Hread|]. split; [|reflexivity].
  exact (reader_words _ _ _ Hread).
Qed.

(** X13. What [Passphrase(inputfile, is_diceware)] builds when it
    completes: the four classes enabled, a space as separator, [MIN_NUM]
    and [MAX_NUM] as bounds, nothing generated and no amount, length or
    entropy set, whatever [inputfile] is. Only the word list and its cached
    entropy go by [inputfile]: both unset without one, the built-in list
    and its constant for ['internal'] (no file of that name is looked for),
    the words read from the file and no cached entropy otherwise. What the
    object held before [__init__] ran does not show. *)
Theorem Passphrase_new_builds {settings : Settings}
        (inputfile : option string) (is_diceware : bool)
        (self : Passphrase) (w w' : W) :
  Passphrase_new inputfile is_diceware w = (Ok self, w') ->
  w' = w
  /\ set_wordlist None (set_wordlist_entropy_bits None self) = initial
  /\ last_result self = None
  /\ match inputfile with
     | None => _wordlist self = None /\ _wordlist_entropy_bits self = None
     | Some f =>
         if String.eqb f "internal"
         then _wordlist self = Some EFF_LONG_WORDLIST
              /\ _wordlist_entropy_bits self = Some EFF_LONG_WORDLIST_ENTROPY
         else exists words,
                reader is_diceware f = Ok words
                /\ _wordlist self = Some words
                /\ _wordlist_entropy_bits self = None
     end.
Proof.
  unfold Passphrase_new. rewrite init_assigns_defaults.
  destruct inputfile as [f|].
  - destruct (String.eqb f "internal").
    + intros E. inversion E; subst. repeat split.
    + destruct (import_words_from_file f is_diceware initial w)
        as [[[[]|e] self1] w1] eqn:Ei; intros E; inversion E; subst.
      unfold import_words_from_file, bind, call, raise_if, assign, raise, ret
        in Ei.
      destruct (isfile_notempty f) as [[|]|e]; simpl in Ei; try discriminate.
      assert (H : exists words,
                 reader is_diceware f = Ok words
                 /\ self = set_wordlist (Some words)
                             (set_wordlist_entropy_bits None initial)
                 /\ w' = w).
      { unfold reader. destruct is_diceware.
        - destruct (_read_words_from_diceware f) as [words|];
            inversion Ei. now exists words.
        - destruct (_read_words_from_wordfile f) as [words|];
            inversion Ei. now exists words. }
      destruct H as (words & Hread & -> & ->).
      split; [reflexivity|]. split; [reflexivity|]. split; [reflexivity|].
      exists words. now repeat split.
  - intros E. inversion E; subst. repeat split.
Qed.

End ImportWords.

Lemma import_words_from_file_completed_witness :
  let self' := set_wordlist (Some [PyStr "abacus"; PyStr "abdomen"])
                 (set_wordlist_entropy_bits None example_loaded) in
  isfile_notempty (TextFiles := fs_files example_fs) "dice.txt" = Ok true
  /\ (exists words,
         reader (files := fs_files example_fs) true "dice.txt" = Ok words
         /\ Forall (read_word true) words
         /\ self' = set_wordlist (Some words)
                      (set_wordlist_entropy_bits None example_loaded))
  /\ last_result self' = last_result example_loaded
  /\ tt = tt.
Proof.
  intros self'.
  exact (import_words_from_file_completed (files := fs_files example_fs)
           "dice.txt" true example_loaded self' tt tt eq_refl).
Defined.

Lemma Passphrase_new_builds_witness :
  let self := set_wordlist (Some [PyStr "Abacus"; PyStr "abdomen"])
                (set_wordlist_entropy_bits None example_object) in
  tt = tt
  /\ set_wordlist None (set_wordlist_entropy_bits None self) = example_object
  /\ last_result self = None
  /\ exists words,
       reader (files := fs_files example_fs) false "words.txt" = Ok words
       /\ _wordlist self = Some words
       /\ _wordlist_entropy_bits self = None.
Proof.
  intros self.
  exact (Passphrase_new_builds (builtin := example_wordlist)
           (files := fs_files example_fs) (settings := example_settings)
           (Some "words.txt") false self tt tt eq_refl).
Defined.

(** ** The dispatch of [entropy_bits] *)

Section EntropyBits.

Context {calc : Calc}.

(** X20. [entropy_bits] goes by the shape of its argument: it hands the
    two elements of a list or tuple of exactly two numbers to
    [calc_entropy_bits_nrange], every other list or tuple to
    [calc_entropy_bits], and raises a [TypeError] for anything else. What
    it returns is what [calc] returned, value or exception. *)
Theorem entropy_bits_dispatch (lst : pyval) :
  entropy_bits lst
  = match shape_of lst with
    | NumericPair a b => calc_entropy_bits_nrange a b
    | SymbolSet => calc_entropy_bits lst
    | NotASequence => Err (Raise TypeError "lst must be a list or a tuple")
    end.
Proof.
  destruct lst as [| | | | |l|l]; try reflexivity;
    destruct l as [|a [|b [|c l]]]; try reflexivity;
    simpl; destruct (isinstance_int_float a), (isinstance_int_float b);
    reflexivity.
Qed.

End EntropyBits.

Example shape_of_examples :
  shape_of (PyTuple [PyInt 100000; PyInt 999999])
  = NumericPair (PyInt 100000) (PyInt 999999)
  /\ shape_of (PyList [PyStr "abacus"; PyStr "abdomen"]) = SymbolSet
  /\ shape_of (PyList [PyInt 1; PyFloat float_zero; PyInt 3]) = SymbolSet
  /\ shape_of (PyList [PyBool true; PyFloat float_zero])
     = NumericPair (PyBool true) (PyFloat float_zero)
  /\ shape_of (PyStr "abacus") = NotASequence.
Proof. repeat split. Qed.

(** ** The entropy queries *)

Section Queries.

Context {W : Type}.

(** X14. Each query fails with a [ValueError], without asking [calc] and
    with the object as it was, when something it needs is unset:
    [entropy_bits_req] or every character class for
    [password_length_needed]; [entropy_bits_req], [amount_n] or the word
    list (unset or empty) for [words_amount_needed]; [passwordlen] or every
    character class for [generated_password_entropy]; [amount_w],
    [amount_n] or the word list for [generated_passphrase_entropy]. *)
Theorem queries_refuse_unset (self : Passphrase) (w : W) :
  forall calc : Calc,
    (let s := set_entropy_bits_req None self in
     password_length_needed s w = (Err password_length_unready, s, w))
    /\ (let s := without_classes self in
        password_length_needed s w = (Err password_length_unready, s, w)
        /\ generated_password_entropy s w
           = (Err password_entropy_unready, s, w))
    /\ (let s := set_passwordlen None self in
        generated_password_entropy s w
        = (Err password_entropy_unready, s, w))
    /\ (let s := set_entropy_bits_req None self in
        words_amount_needed s w = (Err words_amount_unready, s, w))
    /\ (let s := set_amount_n None self in
        words_amount_needed s w = (Err words_amount_unready, s, w)
        /\ generated_passphrase_entropy s w
           = (Err passphrase_entropy_unready, s, w))
    /\ (let s := set_amount_w None self in
        generated_passphrase_entropy s w
        = (Err passphrase_entropy_unready, s, w))
    /\ (let s := set_wordlist None self in
        words_amount_needed s w = (Err words_amount_unready, s, w)
        /\ generated_passphrase_entropy s w
           = (Err passphrase_entropy_unready, s, w))
    /\ (let s := set_wordlist (Some []) self in
        words_amount_needed s w = (Err words_amount_unready, s, w)
        /\ generated_passphrase_entropy s w
           = (Err passphrase_entropy_unready, s, w)).
Proof.
  intros calc. cbv zeta.
  unfold password_length_needed, words_amount_needed,
    generated_password_entropy, generated_passphrase_entropy,
    bind, get, wordlist_missing.
  repeat split; simpl;
    repeat match goal with
           | |- context [match ?x with _ => _ end] =>
               first [ is_var x | is_proj x ]; destruct x
           | |- context [match _entropy_bits_req self with _ => _ end] =>
               destruct (_entropy_bits_req self)
           | |- context [match _passwordlen self with _ => _ end] =>
               destruct (_passwordlen self)
           | |- context [match _amount_n self with _ => _ end] =>
               destruct (_amount_n self)
           | |- context [match _amount_w self with _ => _ end] =>
               destruct (_amount_w self)
           end;
    reflexivity.
Qed.

(** X15. A password of length [0] and a passphrase of no word and no number
    have entropy [0.0], computed without [calc], once what the query needs
    is there: some character class for the first, a word list that is not
    empty for the second. *)
Theorem empty_secret_has_no_entropy (self : Passphrase) (w : W) :
  forall calc : Calc,
    (let s := set_passwordlen (Some 0) self in
     generated_password_entropy s w
     = (if String.eqb (_get_password_characters self) ""
        then Err password_entropy_unready
        else Ok float_zero, s, w))
    /\ (let s := set_amount_w (Some 0) (set_amount_n (Some 0) self) in
        generated_passphrase_entropy s w
        = (if wordlist_missing self
           then Err passphrase_entropy_unready
           else Ok float_zero, s, w)).
Proof.
  intros calc. cbv zeta. split.
  - unfold generated_password_entropy, bind, get. simpl.
    change (_get_password_characters (set_passwordlen (Some 0) self))
      with (_get_password_characters self).
    destruct (String.eqb (_get_password_characters self) ""); reflexivity.
  - unfold generated_passphrase_entropy, bind, get. simpl.
    change (wordlist_missing
              (set_amount_w (Some 0) (set_amount_n (Some 0) self)))
      with (wordlist_missing self).
    destruct (wordlist_missing self); reflexivity.
Qed.

(** X16. On an object that is ready, with a cached entropy per word that is
    not zero, [words_amount_needed] and [generated_passphrase_entropy] ask
    [calc] for the entropy of the range from [randnum_min] to
    [randnum_max] and give the cached value for the entropy per word: the
    word list itself is not measured. *)
Theorem passphrase_queries_use_cache (self : Passphrase) (w : W)
        (req cached : float) (amount_w amount_n : Z) :
  _entropy_bits_req self = Some req ->
  _amount_w self = Some amount_w ->
  _amount_n self = Some amount_n ->
  wordlist_missing self = false ->
  _wordlist_entropy_bits self = Some cached ->
  float_truth cached = true ->
  forall calc : Calc,
    words_amount_needed self w
    = (rbind (calc_entropy_bits_nrange (PyInt (_randnum_min self))
                (PyInt (_randnum_max self)))
         (fun entropy_n =>
            calc_words_amount_needed req cached entropy_n amount_n),
       self, w)
    /\ ((amount_n =? 0) && (amount_w =? 0) = false ->
        generated_passphrase_entropy self w
        = (rbind (calc_entropy_bits_nrange (PyInt (_randnum_min self))
                    (PyInt (_randnum_max self)))
             (fun entropy_n =>
                calc_passphrase_entropy amount_w cached entropy_n amount_n),
           self, w)).
Proof.
  intros Hreq Hw Hn Hl Hc Ht calc.
  unfold words_amount_needed, generated_passphrase_entropy, bind, get, call.
  rewrite Hreq, Hw, Hn, Hl.
  unfold wordlist_entropy. rewrite Hc, Ht.
  change (entropy_bits (PyTuple [PyInt (_randnum_min self);
                                 PyInt (_randnum_max self)]))
    with (calc_entropy_bits_nrange (PyInt (_randnum_min self))
            (PyInt (_randnum_max self))).
  split.
  - now destruct (calc_entropy_bits_nrange _ _).
  - intros ->. cbv beta iota.
    change (entropy_bits (PyTuple [PyInt (_randnum_min self);
                                   PyInt (_randnum_max self)]))
      with (calc_entropy_bits_nrange (PyInt (_randnum_min self))
              (PyInt (_randnum_max self))).
    rewrite Hc, Ht.
    now destruct (calc_entropy_bits_nrange _ _).
Qed.

(** X17. Without a cached entropy per word, the entropy per word is asked
    of [calc] by the shape of the word list: a word list of exactly two
    numbers is measured as a range between them, every other word list as a
    set of symbols. *)
Theorem wordlist_measured_by_shape (self : Passphrase) (wordlist : list pyval) :
  _wordlist self = Some wordlist ->
  _wordlist_entropy_bits self = None ->
  forall calc : Calc,
    wordlist_entropy self
    = match shape_of (PyList wordlist) with
      | NumericPair a b => calc_entropy_bits_nrange a b
      | _ => calc_entropy_bits (PyList wordlist)
      end.
Proof.
  intros Hl Hc calc. unfold wordlist_entropy, wordlist_seq. rewrite Hc, Hl.
  destruct wordlist as [|a [|b [|c l]]]; try reflexivity.
  simpl. destruct (isinstance_int_float a), (isinstance_int_float b);
    reflexivity.
Qed.

End Queries.

Lemma passphrase_queries_use_cache_witness :
  let self := set_entropy_bits_req (Some float_zero) example_ready in
  _wordlist_entropy_bits self
  = Some (S754_finite false 6755399441055744 (-51))
  /\ forall calc : Calc,
      words_amount_needed self tt
      = (rbind (calc_entropy_bits_nrange (PyInt 100000) (PyInt 999999))
           (fun entropy_n =>
              calc_words_amount_needed float_zero
                (S754_finite false 6755399441055744 (-51)) entropy_n 1),
         self, tt)
      /\ ((1 =? 0) && (3 =? 0) = false ->
          generated_passphrase_entropy self tt
          = (rbind (calc_entropy_bits_nrange (PyInt 100000) (PyInt 999999))
               (fun entropy_n =>
                  calc_passphrase_entropy 3
                    (S754_finite false 6755399441055744 (-51)) entropy_n 1),
             self, tt)).
Proof.
  intros self. split; [reflexivity|].
  exact (passphrase_queries_use_cache self tt float_zero
           (S754_finite false 6755399441055744 (-51)) 3 1
           eq_refl eq_refl eq_refl eq_refl eq_refl eq_refl).
Defined.

Lemma wordlist_measured_by_shape_witness :
  let self := set_wordlist_entropy_bits None
                (set_wordlist (Some [PyInt 1; PyInt 6]) example_object) in
  _wordlist self = Some [PyInt 1; PyInt 6]
  /\ forall calc : Calc,
      wordlist_entropy self = calc_entropy_bits_nrange (PyInt 1) (PyInt 6).
Proof.
  intros self. split; [reflexivity|].
  exact (wordlist_measured_by_shape self [PyInt 1; PyInt 6] eq_refl eq_refl).
Defined.

(** ** A UUID as a string *)

Section Uuid4String.

Context {W : Type} {secrets : Secrets W}.

(** X18. With [-] as separator, the string of the object after
    [generate_uuid4] is the UUID in its usual form, when [randhex(30)] gives
    30 characters and [randbetween(8, 11)] a number of [8..11]: 36
    characters, in groups of 8, 4, 4, 4 and 12 with a [-] between them, the
    third group starting with [4]. *)
Theorem str_of_uuid4 (self : Passphrase) (w w1 w2 : W) (hexstr : string)
        (variant : Z) :
  _separator self = "-" ->
  randhex 30 w = (Ok hexstr, w1) ->
  String.length hexstr = 30%nat ->
  randbetween 8 11 w1 = (Ok variant, w2) ->
  8 <= variant <= 11 ->
  exists uuid4 self' g1 g2 g3 g4 g5,
    generate_uuid4 self w = (Ok uuid4, self', w2)
    /\ __str__ self'
       = g1 ++ "-" ++ g2 ++ "-" ++ ("4" ++ g3) ++ "-" ++ g4 ++ "-" ++ g5
    /\ String.length (__str__ self') = 36%nat
    /\ String.length g1 = 8%nat
    /\ String.length g2 = 4%nat
    /\ String.length g3 = 3%nat
    /\ String.length g4 = 4%nat
    /\ String.length g5 = 12%nat.
Proof.
  intros Hsep Hhex Hlen Hvar Hrange.
  destruct (format_x_variant_digit variant Hrange) as (c & Hc & _ & _).
  pose proof (generate_uuid4_run self w w1 w2 hexstr variant Hhex Hvar) as Hrun.
  cbv zeta in Hrun. rewrite Hc in Hrun.
  set (g1 := slice 0 8 hexstr) in *.
  set (g2 := slice 8 12 hexstr) in *.
  set (g3 := slice 12 15 hexstr) in *.
  set (g4 := String c "" ++ slice 15 18 hexstr) in *.
  set (g5 := slice_from 18 hexstr) in *.
  assert (Hg : String.length g1 = 8%nat /\ String.length g2 = 4%nat
               /\ String.length g3 = 3%nat /\ String.length g4 = 4%nat
               /\ String.length g5 = 12%nat).
  { unfold g1, g2, g3, g4, g5, slice, slice_from.
    rewrite length_append, !length_substring, Hlen. repeat split. }
  destruct Hg as (H1 & H2 & H3 & H4 & H5).
  clearbody g1 g2 g3 g4 g5.
  assert (Hstr : __str__
                   (set_last_result
                      (Some [IStr g1; IStr g2; IStr ("4" ++ g3); IStr g4;
                             IStr g5]) self)
                 = g1 ++ "-" ++ g2 ++ "-" ++ ("4" ++ g3) ++ "-" ++ g4
                     ++ "-" ++ g5).
  { unfold __str__. simpl last_result. cbv iota zeta.
    change (_separator (set_last_result _ self)) with (_separator self).
    rewrite Hsep.
    change (0 <? String.length "-")%nat with true. cbv iota.
    change (map str [IStr g1; IStr g2; IStr (String "4"%char g3); IStr g4;
                     IStr g5])
      with [g1; g2; String "4"%char g3; g4; g5].
    rewrite join_empty_with_separator.
    rewrite (drop_last_append _ "-").
    reflexivity. }
  eexists _, _, g1, g2, g3, g4, g5.
  split; [exact Hrun|]. split; [exact Hstr|].
  split; [|now repeat split].
  rewrite Hstr.
  repeat first [ rewrite length_append | progress simpl String.length ].
  rewrite H1, H2, H3, H4, H5. reflexivity.
Qed.

End Uuid4String.

Lemma str_of_uuid4_witness :
  let self := set_separator "-" example_object in
  exists uuid4 self' g1 g2 g3 g4 g5,
    generate_uuid4 (secrets := digit_secrets) self (counting_tape 0)
    = (Ok uuid4, self', mkTape (samples (counting_tape 0)) 31)
    /\ __str__ self'
       = g1 ++ "-" ++ g2 ++ "-" ++ ("4" ++ g3) ++ "-" ++ g4 ++ "-" ++ g5
    /\ String.length (__str__ self') = 36%nat
    /\ String.length g1 = 8%nat
    /\ String.length g2 = 4%nat
    /\ String.length g3 = 3%nat
    /\ String.length g4 = 4%nat
    /\ String.length g5 = 12%nat.
Proof.
  intros self.
  apply (str_of_uuid4 (secrets := digit_secrets) self (counting_tape 0)
           (mkTape (samples (counting_tape 0)) 30)
           (mkTape (samples (counting_tape 0)) 31)
           "0123456789abcdef0123456789abcd" 10).
  - reflexivity.
  - vm_compute. reflexivity.
  - vm_compute. reflexivity.
  - vm_compute. reflexivity.
  - split; discriminate.
Defined.

Example str_of_uuid4_from_tape :
  __str__
    (snd (fst (generate_uuid4 (secrets := digit_secrets)
                 (set_separator "-" example_object) (counting_tape 0))))
  = "01234567-89ab-4cde-af01-23456789abcd".
Proof. vm_compute. reflexivity. Qed.

(** ** Generating nothing *)

Section GenerateNothing.

Context {W : Type} {secrets : Secrets W} {aux : Aux}.

(** X19. With [amount_w] and [amount_n] both [0] and a word list that is
    not empty, [generate] returns the empty sequence whatever the directive:
    it draws nothing and calls neither uppercase helper, only
    [Aux.lowercase_count] on the empty sequence; [last_result] becomes the
    empty sequence and the string of the object the empty string. *)
Theorem generate_nothing (uppercase : pyval) (directive : option Z)
        (self : Passphrase) (w : W) (word : pyval) (words : list pyval)
        (lowercase : Z) :
  _amount_w self = Some 0 ->
  _amount_n self = Some 0 ->
  _wordlist self = Some (word :: words) ->
  uppercase_directive uppercase = Ok directive ->
  lowercase_count [] = Ok lowercase ->
  generate uppercase self w = (Ok [], set_last_result (Some []) self, w)
  /\ __str__ (set_last_result (Some []) self) = "".
Proof.
  intros Hw Hn Hl Hd Hc. split; [|reflexivity].
  unfold generate, bind, get, call, wordlist_missing.
  rewrite Hn, Hw, Hl, Hd. simpl append_each. unfold ret.
  unfold handle_uppercase. rewrite Hc. reflexivity.
Qed.

End GenerateNothing.

Lemma generate_nothing_witness :
  let self := set_amount_w (Some 0) (set_amount_n (Some 0) example_loaded) in
  generate (secrets := tape_secrets 1) (aux := char_aux) (PyInt 0) self
    (counting_tape 0)
  = (Ok [], set_last_result (Some []) self, counting_tape 0)
  /\ __str__ (set_last_result (Some []) self) = "".
Proof.
  intros self.
  exact (generate_nothing (secrets := tape_secrets 1) (aux := char_aux)
           (PyInt 0) (Some 0) self (counting_tape 0) (PyStr "abacus")
           (map PyStr ["abdomen"; "abdominal"; "abide"; "abiding";
                       "ability"; "ablaze"; "able"])
           0 eq_refl eq_refl eq_refl eq_refl eq_refl).
Defined.
